(** * Customizing Saving and Serialization

    A shallow embedding of the code cells of the guide
    [guides/ipynb/customizing_saving_and_serialization.ipynb]: the four
    classes that override hooks of the Keras saving API, the two registered
    functions [small_square_sum_loss] and [mean_pred], and the four example
    scripts that save a model, load it back and assert on the result.

    Conventions of the model.
    - A Python call that raises is [None]; the state at the moment of the
      exception is not observed.
    - A Python [str] is a [string]; a [dict] with string keys is a
      [gmap string _].
    - The host is POSIX: [os.sep] is "/" and [os.linesep] is "\n".
    - The framework (Keras, TensorFlow, NumPy) is not part of the source.
      Where a script or an override calls into it, the call is modelled by
      what the guide itself says of it, and said so at the definition. *)

From Stdlib Require Import String Ascii QArith Qcanon.
From stdpp Require Import gmap strings list fin_maps pretty.
From Equations Require Import Equations.

(** ** Python values that travel through configuration dictionaries *)

#[warnings="-register-all"]
Inductive pyval : Type :=
| PyNone
| PyBool (b : bool)
| PyInt (z : Z)
| PyStr (s : string)
| PyFunction (qualname : string)
| PyTuple (items : list pyval)
| PyList (items : list pyval).

(** A configuration dictionary, as returned by [get_build_config] and
    [get_compile_config]. *)
Abbreviation config := (gmap string pyval).

(** [seq[-1]] on a tuple or a list; anything else, or an empty sequence,
    raises. *)
Definition py_last (v : pyval) : option pyval :=
  match v with
  | PyTuple items | PyList items => last items
  | _ => None
  end.

(** Structural equality, which is what [==] computes on the values the
    guide compares: strings, booleans, registered functions and lists of
    them. *)
Fixpoint pyval_eqb (x y : pyval) : bool :=
  let fix all_eqb (xs ys : list pyval) : bool :=
    match xs, ys with
    | [], [] => true
    | x' :: xs', y' :: ys' => pyval_eqb x' y' && all_eqb xs' ys'
    | _, _ => false
    end in
  match x, y with
  | PyNone, PyNone => true
  | PyBool a, PyBool b => Bool.eqb a b
  | PyInt a, PyInt b => Z.eqb a b
  | PyStr a, PyStr b => String.eqb a b
  | PyFunction a, PyFunction b => String.eqb a b
  | PyTuple xs, PyTuple ys => all_eqb xs ys
  | PyList xs, PyList ys => all_eqb xs ys
  | _, _ => false
  end.

(** A passing [assert] goes on, a failing one raises. *)
Definition py_assert (holds : bool) : option unit :=
  if holds then Some () else None.

(** ** Python built-ins used by the asset hooks *)

Module PyStr.

Fixpoint drop_str (n : nat) (s : string) : string :=
  match n, s with
  | S n', String _ s' => drop_str n' s'
  | _, _ => s
  end.

Lemma drop_str_length n s : String.length (drop_str n s) <= String.length s.
Proof.
  revert s; induction n as [|n IH]; intros [|c s]; simpl; auto.
Qed.

(** [s.replace(old, new)] for a non-empty [old], given as its first
    character [c0] and the rest [old']: scan from the left, and at each
    position where [old] starts emit [new] and resume after the match. *)
Equations? replace_ne (c0 : ascii) (old' new s : string) : string
  by wf (String.length s) lt :=
replace_ne c0 old' new "" := "";
replace_ne c0 old' new (String c s') :=
  if String.prefix (String c0 old') (String c s')
  then new +:+ replace_ne c0 old' new (drop_str (String.length old') s')
  else String c (replace_ne c0 old' new s').
Proof.
  pose proof (drop_str_length (String.length old') s'). simpl. lia.
Qed.

(** [s.replace("", new)]: [new] before every character and at the end. *)
Fixpoint interleave (new s : string) : string :=
  match s with
  | "" => new
  | String c s' => new +:+ String c (interleave new s')
  end.

(** [str.replace] *)
Definition replace (s old new : string) : string :=
  match old with
  | "" => interleave new s
  | String c0 old' => replace_ne c0 old' new s
  end.

(** [old in s] *)
Fixpoint contains (old s : string) : bool :=
  String.prefix old s ||
  match s with
  | "" => false
  | String _ s' => contains old s'
  end.

(** [c in s] for one character. *)
Fixpoint has_char (c : ascii) (s : string) : bool :=
  match s with
  | "" => false
  | String c' s' => bool_decide (c = c') || has_char c s'
  end.

Definition CR : ascii := "013"%char.
Definition LF : ascii := "010"%char.

(** What a text-mode read hands back: with the default [newline=None] every
    "\r\n" and every remaining "\r" of the file comes back as "\n". *)
Fixpoint universal_newlines (s : string) : string :=
  match s with
  | "" => ""
  | String c s' =>
      if decide (c = CR) then
        match s' with
        | String c' s'' =>
            if decide (c' = LF) then String LF (universal_newlines s'')
            else String LF (universal_newlines s')
        | "" => String LF ""
        end
      else String c (universal_newlines s')
  end.

Fixpoint ends_with_sep (s : string) : bool :=
  match s with
  | "" => false
  | String c "" => bool_decide (c = "/"%char)
  | String _ s' => ends_with_sep s'
  end.

(** [os.path.join(a, b)] of [posixpath], for two components. *)
Definition os_path_join (a b : string) : string :=
  if String.prefix "/" b then b
  else if bool_decide (a = "") || ends_with_sep a then a +:+ b
  else a +:+ "/" +:+ b.

End PyStr.

(** ** The file system the asset hooks write to *)

(** Regular files by path. The directory handed to an asset hook is created
    by the framework before the hook runs, so opening a file for writing
    below it succeeds; opening a missing file for reading raises. A file is
    known by the string of its path: two spellings of one path are two
    files here, so what is proved of a file is proved for one spelling. *)
Abbreviation filesystem := (gmap string string).

Module FileIO.

(** [with open(path, "w") as f: f.write(text)] *)
Definition write_text (path text : string) (fs : filesystem) : filesystem :=
  <[path := text]> fs.

(** [with open(path, "r") as f: text = f.read()] *)
Definition read_text (path : string) (fs : filesystem) : option string :=
  PyStr.universal_newlines <$> fs !! path.

End FileIO.

(** ** State saving customization *)

(** *** [save_own_variables()] and [load_own_variables()] *)

Module CustomVariables.
Section Layer.

(** What [v.numpy()] returns and [v.assign] takes. *)
Context {ndarray : Type}.

(** The variables a [LayerWithCustomVariables] owns, each by its current
    value: the weights the framework tracks for the layer, in the two lists
    the default implementation reads, and [stored_variables]. Here [assign]
    is the overwrite of the value and [stored_variables] is kept beside the
    weights: every value assigned is taken to have the shape of its
    variable. [CheckedVariables] below has the shape check of [assign] and
    tracks [stored_variables] among the weights. *)
Record LayerWithCustomVariables : Type := {
  _trainable_weights : list ndarray;
  _non_trainable_weights : list ndarray;
  stored_variables : ndarray
}.

(** The framework's [weights] property: the trainable weights followed by
    the non-trainable ones. *)
Definition weights (self : LayerWithCustomVariables) : list ndarray :=
  _trainable_weights self ++ _non_trainable_weights self.

(** [enumerate(l)], counting from [i]. *)
Fixpoint enumerate_from {A : Type} (i : nat) (l : list A) : list (nat * A) :=
  match l with
  | [] => []
  | x :: l' => (i, x) :: enumerate_from (S i) l'
  end.

Definition enumerate {A : Type} (l : list A) : list (nat * A) :=
  enumerate_from 0 l.

(** The default implementation, as the guide quotes it:
    [[
    def save_own_variables(self, store):
        all_vars = self._trainable_weights + self._non_trainable_weights
        for i, v in enumerate(all_vars):
            store[f"{i}"] = v.numpy()
    ]] *)
Definition Layer_save_own_variables (self : LayerWithCustomVariables)
    (store : gmap string ndarray) : gmap string ndarray :=
  let all_vars := _trainable_weights self ++ _non_trainable_weights self in
  foldl (fun st iv => <[pretty (fst iv) := snd iv]> st) store (enumerate all_vars).

(** The loop of the default implementation when the count starts at [k]. *)
Definition write_from (k : nat) (all_vars : list ndarray)
    (store : gmap string ndarray) : gmap string ndarray :=
  foldl (fun st iv => <[pretty (fst iv) := snd iv]> st) store
        (enumerate_from k all_vars).

Definition save_own_variables (self : LayerWithCustomVariables)
    (store : gmap string ndarray) : gmap string ndarray :=
  let store := Layer_save_own_variables self store in
  <["variables" := stored_variables self]> store.

(** The loop [for i, v in enumerate(self.weights): v.assign(store[f"{i}"])]:
    the new values of the weights, or [None] at the first missing key. *)
Definition assign_weights (ws : list ndarray) (store : gmap string ndarray)
    : option (list ndarray) :=
  mapM (fun iv : nat * ndarray => store !! pretty (fst iv)) (enumerate ws).

Definition load_own_variables (self : LayerWithCustomVariables)
    (store : gmap string ndarray) : option LayerWithCustomVariables :=
  sv ← store !! "variables";
  ws ← assign_weights (weights self) store;
  Some {| _trainable_weights := take (length (_trainable_weights self)) ws;
          _non_trainable_weights := drop (length (_trainable_weights self)) ws;
          stored_variables := sv |}.

End Layer.
Arguments LayerWithCustomVariables : clear implicits.
End CustomVariables.

(** *** [save_assets()] and [load_assets()] *)

Module CustomAssets.

(** [vocab] is whatever the constructor was given, [None] by default. The
    state inherited from [Dense] plays no part in the asset hooks. *)
Record LayerWithCustomAssets : Type := {
  vocab : option string
}.

(** [__init__(self, vocab=None, *args, **kwargs)] *)
Definition init (vocab : option string) : LayerWithCustomAssets :=
  {| vocab := vocab |}.

(** Writing [None] raises [TypeError]. *)
Definition save_assets (self : LayerWithCustomAssets) (inner_path : string)
    (fs : filesystem) : option filesystem :=
  text ← vocab self;
  Some (FileIO.write_text (PyStr.os_path_join inner_path "vocabulary.txt") text fs).

Definition load_assets (self : LayerWithCustomAssets) (inner_path : string)
    (fs : filesystem) : option LayerWithCustomAssets :=
  text ← FileIO.read_text (PyStr.os_path_join inner_path "vocabulary.txt") fs;
  Some {| vocab := Some (PyStr.replace text "<unk>" "little") |}.

End CustomAssets.

(** ** [build] and [compile] saving customization *)

(** The part of [keras.layers.Layer] that the build hooks reach through
    [super()]. The guide says of it: "By default, this only includes a build
    config dictionary with the layer's input shape", and the override notes
    that [super().get_build_config()] "only gives `input_shape`". A layer
    that was never built has no input shape to give. *)
Module KerasLayer.

Record Layer : Type := {
  built : bool;
  _build_input_shape : option pyval
}.

Definition init : Layer :=
  {| built := false; _build_input_shape := None |}.

Definition build (self : Layer) (input_shape : pyval) : Layer :=
  {| built := true; _build_input_shape := Some input_shape |}.

Definition get_build_config (self : Layer) : option config :=
  input_shape ← _build_input_shape self;
  Some {[ "input_shape" := input_shape ]}.

Definition build_from_config (self : Layer) (cfg : config) : option Layer :=
  input_shape ← cfg !! "input_shape";
  Some (build self input_shape).

End KerasLayer.

(** *** [get_build_config()] and [build_from_config()] *)

Module CustomBuild.

(** A variable made by [add_weight], by the arguments it was made with.
    The framework is taken to accept them; [CheckedBuild] below has the
    call that may raise. *)
Record weight : Type := {
  w_shape : list pyval;
  w_initializer : pyval;
  w_trainable : bool
}.

Definition add_weight (shape : list pyval) (initializer : pyval)
    (trainable : bool) : weight :=
  {| w_shape := shape; w_initializer := initializer; w_trainable := trainable |}.

(** [w], [b] and [layer_init] exist only once [build] has run. *)
Record LayerWithCustomBuild : Type := {
  base : KerasLayer.Layer;
  units : Z;
  w : option weight;
  b : option weight;
  layer_init : option pyval
}.

(** [__init__(self, units=32, **kwargs)] *)
Definition init (units : Z) : LayerWithCustomBuild :=
  {| base := KerasLayer.init; units := units;
     w := None; b := None; layer_init := None |}.

(** [get_config(self)], that is [dict(units=self.units, **super().get_config())],
    where [base_config] is what [super().get_config()] returned. A "units"
    entry of the base configuration would be a second value for the keyword
    [units], which raises [TypeError]. *)
Definition get_config (self : LayerWithCustomBuild) (base_config : config)
    : option config :=
  match base_config !! "units" with
  | Some _ => None
  | None => Some (<["units" := PyInt (units self)]> base_config)
  end.

Definition build (self : LayerWithCustomBuild) (input_shape layer_init : pyval)
    : option LayerWithCustomBuild :=
  let base' := KerasLayer.build (base self) input_shape in
  last_dim ← py_last input_shape;
  let w' := add_weight [last_dim; PyInt (units self)] layer_init true in
  let b' := add_weight [PyInt (units self)] layer_init true in
  Some {| base := base'; units := units self;
          w := Some w'; b := Some b'; layer_init := Some layer_init |}.

(** Reading [self.layer_init] before [build] raises [AttributeError]. *)
Definition get_build_config (self : LayerWithCustomBuild) : option config :=
  build_config ← KerasLayer.get_build_config (base self);
  init ← layer_init self;
  Some (<["layer_init" := init]> build_config).

Definition build_from_config (self : LayerWithCustomBuild) (cfg : config)
    : option LayerWithCustomBuild :=
  input_shape ← cfg !! "input_shape";
  init ← cfg !! "layer_init";
  build self input_shape init.

End CustomBuild.

(** *** [get_compile_config()] and [compile_from_config()] *)

Module CustomCompile.

(** [compiled_with] is what [super().compile] was last called with; the
    three attributes exist only once [compile] has run. The two [Dense]
    sublayers play no part in the compile hooks. The framework is taken to
    accept what it is called with; [CheckedCompile] below has the call that
    may raise. *)
Record ModelWithCustomCompile : Type := {
  compiled_with : option (pyval * pyval * pyval);
  model_optimizer : option pyval;
  loss_fn : option pyval;
  loss_metrics : option pyval
}.

(** [__init__(self)] *)
Definition init : ModelWithCustomCompile :=
  {| compiled_with := None; model_optimizer := None;
     loss_fn := None; loss_metrics := None |}.

Definition compile (self : ModelWithCustomCompile)
    (optimizer loss_fn metrics : pyval) : ModelWithCustomCompile :=
  {| compiled_with := Some (optimizer, loss_fn, metrics);
     model_optimizer := Some optimizer;
     loss_fn := Some loss_fn;
     loss_metrics := Some metrics |}.

Definition get_compile_config (self : ModelWithCustomCompile) : option config :=
  optimizer ← model_optimizer self;
  loss ← loss_fn self;
  metrics ← loss_metrics self;
  Some {[ "model_optimizer" := optimizer; "loss_fn" := loss; "metric" := metrics ]}.

Section Deserialize.

(** [keras.utils.deserialize_keras_object], which may raise. *)
Variable deserialize_keras_object : pyval → option pyval.

Definition compile_from_config (self : ModelWithCustomCompile) (cfg : config)
    : option ModelWithCustomCompile :=
  optimizer ← cfg !! "model_optimizer" ≫= deserialize_keras_object;
  loss_fn ← cfg !! "loss_fn" ≫= deserialize_keras_object;
  metrics ← cfg !! "metric" ≫= deserialize_keras_object;
  Some (compile self optimizer loss_fn metrics).

(** The models one can get from the constructor by calls of [compile] and
    by successful calls of [compile_from_config]. *)
Inductive reachable : ModelWithCustomCompile → Prop :=
| reachable_init : reachable init
| reachable_compile (self : ModelWithCustomCompile)
    (optimizer loss_fn metrics : pyval) :
    reachable self → reachable (compile self optimizer loss_fn metrics)
| reachable_compile_from_config (self restored : ModelWithCustomCompile)
    (cfg : config) :
    reachable self → compile_from_config self cfg = Some restored →
    reachable restored.

End Deserialize.

End CustomCompile.

(** ** The registered loss and metric *)

Module Losses.

Local Open Scope Qc_scope.

(** A rank-2 tensor, batch by features, by rows; its entries are taken as
    exact rationals. *)
Abbreviation tensor := (list (list Qc)).

Definition Qc_of_nat (n : nat) : Qc := Q2Qc (inject_Z (Z.of_nat n)).

(** The shape of a tensor, as one length per row. *)
Definition row_lengths (t : tensor) : list nat := map length t.

(** [tf.math.squared_difference(x, y)], that is [(x - y) * (x - y)] entry
    by entry, on operands of one shape. Where it can, TensorFlow broadcasts
    operands of different shapes; broadcasting is outside the model, which
    gives [None] there, so what is proved of the loss is proved for
    operands of one shape. *)
Definition squared_difference (x y : tensor) : option tensor :=
  if decide (row_lengths x = row_lengths y)
  then Some (zip_with (zip_with (fun a b => (a - b) * (a - b))) x y)
  else None.

(** [t / c] for a scalar [c]. *)
Definition div_scalar (t : tensor) (c : Qc) : tensor :=
  map (map (fun a => a / c)) t.

(** [tf.reduce_sum(t, axis=1)] *)
Definition reduce_sum_axis1 (t : tensor) : list Qc :=
  map (foldr Qcplus 0) t.

(** [tf.reduce_mean(t)] over all entries; [None] stands for the NaN of an
    empty tensor. *)
Definition reduce_mean (t : tensor) : option Qc :=
  let entries := concat t in
  match entries with
  | [] => None
  | _ => Some (foldr Qcplus 0 entries / Qc_of_nat (length entries))
  end.

Definition small_square_sum_loss (y_true y_pred : tensor) : option (list Qc) :=
  loss ← squared_difference y_pred y_true;
  let loss := div_scalar loss (Qc_of_nat 10) in
  let loss := reduce_sum_axis1 loss in
  Some loss.

Definition mean_pred {Y : Type} (y_true : Y) (y_pred : tensor) : option Qc :=
  reduce_mean y_pred.

(** The loss in the words of its description: along axis 1, the sum of the
    squares of [y_pred - y_true], divided by 10. *)
Definition sum_of_squares_over_ten (y_true y_pred : tensor) : list Qc :=
  zip_with
    (fun p t => foldr Qcplus 0 (zip_with (fun a b => (a - b) ^ 2) p t) / Qc_of_nat 10)
    y_pred y_true.

(** The metric in the words of its description, the mean of [y_pred]: the
    value that, taken once for every entry, gives the sum of the entries,
    here added up row by row. A tensor without entries has no mean. *)
Definition entry_count (t : tensor) : nat := sum_list (row_lengths t).

Definition is_mean_of (m : Qc) (t : tensor) : Prop :=
  entry_count t ≠ 0%nat
  ∧ m * Qc_of_nat (entry_count t) = foldr Qcplus 0 (reduce_sum_axis1 t).

End Losses.

(** ** The hooks with the checks of the framework

    The modules above follow the values the hooks move and take every call
    into the framework to succeed. The three modules below embed the same
    overrides together with the checks the framework makes on the way: the
    shape check of [assign] and the tracking of [stored_variables] among the
    weights, and the calls of [add_weight] and of [Model.compile], which
    raise on arguments the framework does not accept and change what the
    framework holds. The framework is not in the source, so what it accepts
    and what it does are parameters. *)

(** *** [save_own_variables()] and [load_own_variables()] *)

Module CheckedVariables.
Section Layer.

Context {ndarray : Type}.

(** [value.shape] *)
Variable shape : ndarray → list nat.

(** A [tf.Variable] is taken by the value it holds; its shape is fixed when
    it is created and is the shape of that value. [v.assign(value)] raises
    [ValueError] when [value] has another shape. *)
Definition assign (v value : ndarray) : option ndarray :=
  if decide (shape value = shape v) then Some value else None.

(** The variables of the layer. A variable set as an attribute of a layer
    is tracked among the weights of the layer: [stored_variables], which the
    constructor sets before [Dense] has made any weight, is the first of
    the trainable weights, and [dense_weights] are the trainable weights
    [Dense] adds after it. *)
Record LayerWithCustomVariables : Type := {
  stored_variables : ndarray;
  dense_weights : list ndarray;
  _non_trainable_weights : list ndarray
}.

Definition _trainable_weights (self : LayerWithCustomVariables) : list ndarray :=
  stored_variables self :: dense_weights self.

(** The framework's [weights] property. *)
Definition weights (self : LayerWithCustomVariables) : list ndarray :=
  _trainable_weights self ++ _non_trainable_weights self.

(** The default implementation the guide quotes. *)
Definition Layer_save_own_variables (self : LayerWithCustomVariables)
    (store : gmap string ndarray) : gmap string ndarray :=
  let all_vars := _trainable_weights self ++ _non_trainable_weights self in
  foldl (fun st iv => <[pretty (fst iv) := snd iv]> st) store
        (CustomVariables.enumerate all_vars).

Definition save_own_variables (self : LayerWithCustomVariables)
    (store : gmap string ndarray) : gmap string ndarray :=
  let store := Layer_save_own_variables self store in
  <["variables" := stored_variables self]> store.

(** The loop [for i, v in enumerate(ws): v.assign(store[f"{i}"])], counting
    from [k]: the new values, or [None] at the first missing key or
    refused value. *)
Definition assign_all_from (k : nat) (ws : list ndarray)
    (store : gmap string ndarray) : option (list ndarray) :=
  mapM (fun iv : nat * ndarray =>
          value ← store !! pretty (fst iv); assign (snd iv) value)
       (CustomVariables.enumerate_from k ws).

(** [stored_variables] is assigned first, and again as the first weight of
    the loop over [self.weights]. *)
Definition load_own_variables (self : LayerWithCustomVariables)
    (store : gmap string ndarray) : option LayerWithCustomVariables :=
  value ← store !! "variables";
  sv ← assign (stored_variables self) value;
  ws ← assign_all_from 0
         (sv :: dense_weights self ++ _non_trainable_weights self) store;
  match ws with
  | sv' :: rest =>
      Some {| stored_variables := sv';
              dense_weights := take (length (dense_weights self)) rest;
              _non_trainable_weights := drop (length (dense_weights self)) rest |}
  | [] => None
  end.

(** The same layer in [CustomVariables], where [stored_variables] is kept
    beside the weights. *)
Definition values (self : LayerWithCustomVariables)
    : CustomVariables.LayerWithCustomVariables ndarray :=
  {| CustomVariables._trainable_weights := _trainable_weights self;
     CustomVariables._non_trainable_weights := _non_trainable_weights self;
     CustomVariables.stored_variables := stored_variables self |}.

End Layer.
Arguments LayerWithCustomVariables : clear implicits.
End CheckedVariables.

(** *** [get_build_config()] and [build_from_config()] *)

Module CheckedBuild.
Section Layer.

(** What [add_weight] returns, and what the framework holds beside the
    attributes of the layer: the variables it tracks, the generators the
    initializers draw from. *)
Context {variable backend : Type}.

(** [self.add_weight(shape=..., initializer=..., trainable=...)], which
    raises on a shape or an initializer the framework does not accept. *)
Variable add_weight :
  pyval → pyval → bool → backend → option (variable * backend).

(** [w], [b] and [layer_init] exist only once [build] has returned. *)
Record LayerWithCustomBuild : Type := {
  base : KerasLayer.Layer;
  units : Z;
  w : option variable;
  b : option variable;
  layer_init : option pyval
}.

(** [__init__(self, units=32, **kwargs)] *)
Definition init (units : Z) : LayerWithCustomBuild :=
  {| base := KerasLayer.init; units := units;
     w := None; b := None; layer_init := None |}.

Definition build (self : LayerWithCustomBuild) (input_shape layer_init : pyval)
    (fw : backend) : option (LayerWithCustomBuild * backend) :=
  let base' := KerasLayer.build (base self) input_shape in
  last_dim ← py_last input_shape;
  '(w', fw) ← add_weight (PyTuple [last_dim; PyInt (units self)]) layer_init true fw;
  '(b', fw) ← add_weight (PyTuple [PyInt (units self)]) layer_init true fw;
  Some ({| base := base'; units := units self;
           w := Some w'; b := Some b'; layer_init := Some layer_init |}, fw).

(** Reading [self.layer_init] before [build] raises [AttributeError]. *)
Definition get_build_config (self : LayerWithCustomBuild) : option config :=
  build_config ← KerasLayer.get_build_config (base self);
  init ← layer_init self;
  Some (<["layer_init" := init]> build_config).

Definition build_from_config (self : LayerWithCustomBuild) (cfg : config)
    (fw : backend) : option (LayerWithCustomBuild * backend) :=
  input_shape ← cfg !! "input_shape";
  init ← cfg !! "layer_init";
  build self input_shape init fw.

End Layer.
Arguments LayerWithCustomBuild : clear implicits.
End CheckedBuild.

(** *** [get_compile_config()] and [compile_from_config()] *)

Module CheckedCompile.
Section Model.

(** What the framework holds of a model beside the three attributes of the
    override: whether it is compiled, and with what. *)
Context {backend : Type}.

(** [keras.Model.compile(optimizer=..., loss=..., metrics=...)], which
    raises on an optimizer, a loss or metrics the framework does not
    accept. *)
Variable Model_compile : pyval → pyval → pyval → backend → option backend.

(** [keras.utils.deserialize_keras_object], which may raise. *)
Variable deserialize_keras_object : pyval → option pyval.

(** The three attributes exist only once [compile] has returned. *)
Record ModelWithCustomCompile : Type := {
  model_optimizer : option pyval;
  loss_fn : option pyval;
  loss_metrics : option pyval
}.

(** [__init__(self)] *)
Definition init : ModelWithCustomCompile :=
  {| model_optimizer := None; loss_fn := None; loss_metrics := None |}.

Definition compile (self : ModelWithCustomCompile)
    (optimizer loss_fn metrics : pyval) (fw : backend)
    : option (ModelWithCustomCompile * backend) :=
  fw ← Model_compile optimizer loss_fn metrics fw;
  Some ({| model_optimizer := Some optimizer;
           loss_fn := Some loss_fn;
           loss_metrics := Some metrics |}, fw).

Definition get_compile_config (self : ModelWithCustomCompile) : option config :=
  optimizer ← model_optimizer self;
  loss ← loss_fn self;
  metrics ← loss_metrics self;
  Some {[ "model_optimizer" := optimizer; "loss_fn" := loss; "metric" := metrics ]}.

Definition compile_from_config (self : ModelWithCustomCompile) (cfg : config)
    (fw : backend) : option (ModelWithCustomCompile * backend) :=
  optimizer ← cfg !! "model_optimizer" ≫= deserialize_keras_object;
  loss_fn ← cfg !! "loss_fn" ≫= deserialize_keras_object;
  metrics ← cfg !! "metric" ≫= deserialize_keras_object;
  compile self optimizer loss_fn metrics fw.

End Model.
End CheckedCompile.

(** ** The guide as a whole *)

Module Notebook.

(** *** What [model.save] and [load_model] do with the hooks *)

Section Framework.

Context {ndarray : Type}.

(** The directory the framework hands to the asset hooks. *)
Variable inner_path : string.

(** The framework's serializer, applied to a compile configuration "at
    saving time", and the deserializer the override calls. *)
Variable serialize_keras_object : pyval → pyval.
Variable deserialize_keras_object : pyval → option pyval.

(** What one archive file holds, as far as the hooks of the guide fill it:
    the store handed to the variable hooks, the directory handed to the
    asset hooks, the build configurations of the model and of its first
    layer, and the compile configuration. *)
Record archive : Type := {
  arc_variables : gmap string ndarray;
  arc_assets : filesystem;
  arc_model_build_config : option config;
  arc_layer_build_config : option config;
  arc_compile_config : option config
}.

Definition empty_archive : archive :=
  {| arc_variables := ∅; arc_assets := ∅; arc_model_build_config := None;
     arc_layer_build_config := None; arc_compile_config := None |}.

(** The interface the framework saves and restores a model through. The
    guide says the save hooks run "when calling [model.save()]" and the
    load hooks when [keras.models.load_model()] is called, on what the save
    hooks left. [on_load] receives the object as [load_model] has rebuilt it
    from its class and constructor arguments, before any load hook ran. *)
Class Saveable (M : Type) : Type := {
  on_save : M → archive → option archive;
  on_load : M → archive → option M
}.

(** [model.save(filepath)] *)
Definition model_save {M : Type} `{Saveable M} (model : M) (filepath : string)
    (disk : gmap string archive) : option (gmap string archive) :=
  arc ← on_save model empty_archive;
  Some (<[filepath := arc]> disk).

(** [keras.models.load_model(filepath)] *)
Definition load_model {M : Type} `{Saveable M} (rebuilt : M) (filepath : string)
    (disk : gmap string archive) : option M :=
  arc ← disk !! filepath;
  on_load rebuilt arc.

(** [keras.Sequential([LayerWithCustomVariables(1)])], by its one layer. *)
#[local] Instance custom_vars_saveable
    : Saveable (CustomVariables.LayerWithCustomVariables ndarray) := {
  on_save layer arc :=
    Some {| arc_variables :=
              CustomVariables.save_own_variables layer (arc_variables arc);
            arc_assets := arc_assets arc;
            arc_model_build_config := arc_model_build_config arc;
            arc_layer_build_config := arc_layer_build_config arc;
            arc_compile_config := arc_compile_config arc |};
  on_load layer arc :=
    CustomVariables.load_own_variables layer (arc_variables arc)
}.

(** [keras.Sequential([LayerWithCustomAssets(...)])], by its one layer. *)
#[local] Instance custom_assets_saveable
    : Saveable CustomAssets.LayerWithCustomAssets := {
  on_save layer arc :=
    fs ← CustomAssets.save_assets layer inner_path (arc_assets arc);
    Some {| arc_variables := arc_variables arc;
            arc_assets := fs;
            arc_model_build_config := arc_model_build_config arc;
            arc_layer_build_config := arc_layer_build_config arc;
            arc_compile_config := arc_compile_config arc |};
  on_load layer arc :=
    CustomAssets.load_assets layer inner_path (arc_assets arc)
}.

(** [keras.Sequential([custom_layer, keras.layers.Dense(1, ...)])]: the
    model's own build state, and the custom layer. The model keeps the
    default build hooks; a model saved unbuilt has no build configuration
    and is restored unbuilt. The archive keeps a build configuration as the
    hook returned it; the JSON text the framework writes gives a tuple back
    as a list, which none of the asserted attributes shows. *)
Record SequentialWithCustomBuild : Type := {
  seq_base : KerasLayer.Layer;
  seq_layer0 : CustomBuild.LayerWithCustomBuild
}.

#[local] Instance custom_build_saveable : Saveable SequentialWithCustomBuild := {
  on_save model arc :=
    layer_cfg ← CustomBuild.get_build_config (seq_layer0 model);
    Some {| arc_variables := arc_variables arc;
            arc_assets := arc_assets arc;
            arc_model_build_config := KerasLayer.get_build_config (seq_base model);
            arc_layer_build_config := Some layer_cfg;
            arc_compile_config := arc_compile_config arc |};
  on_load model arc :=
    base' ← match arc_model_build_config arc with
            | Some cfg => KerasLayer.build_from_config (seq_base model) cfg
            | None => Some (seq_base model)
            end;
    layer_cfg ← arc_layer_build_config arc;
    layer' ← CustomBuild.build_from_config (seq_layer0 model) layer_cfg;
    Some {| seq_base := base'; seq_layer0 := layer' |}
}.

#[local] Instance custom_compile_saveable
    : Saveable CustomCompile.ModelWithCustomCompile := {
  on_save model arc :=
    cfg ← CustomCompile.get_compile_config model;
    Some {| arc_variables := arc_variables arc;
            arc_assets := arc_assets arc;
            arc_model_build_config := arc_model_build_config arc;
            arc_layer_build_config := arc_layer_build_config arc;
            arc_compile_config := Some (serialize_keras_object <$> cfg) |};
  on_load model arc :=
    cfg ← arc_compile_config arc;
    CustomCompile.compile_from_config deserialize_keras_object model cfg
}.

(** *** The four example scripts

    Each script runs against the archives on disk and returns the disk it
    leaves, the model as it was when [model.save] ran and the model that
    [load_model] returned; it raises when one of its asserts fails. *)

(** [np.testing.assert_allclose] on two arrays. *)
Variable allclose : ndarray → ndarray → bool.

(** [trained] is the layer after [model.compile] and [model.fit], whose
    variables hold whatever training left in them; [rebuilt] is the layer
    [load_model] constructs anew, with freshly initialised variables. *)
Definition custom_vars_example
    (trained rebuilt : CustomVariables.LayerWithCustomVariables ndarray)
    (disk : gmap string archive) :=
  let model := trained in
  disk ← model_save model "custom_vars_model.keras" disk;
  restored_model ← load_model rebuilt "custom_vars_model.keras" disk;
  _ ← py_assert (allclose (CustomVariables.stored_variables model)
                          (CustomVariables.stored_variables restored_model));
  Some (disk, model, restored_model).

(** [load_model] constructs the layer from the configuration of [Dense],
    which has no [vocab], so the constructor default applies. *)
Definition custom_assets_example (disk : gmap string archive) :=
  let model := CustomAssets.init (Some "Mary had a <unk> lamb.") in
  disk ← model_save model "custom_assets_model.keras" disk;
  restored_model ← load_model (CustomAssets.init None)
                              "custom_assets_model.keras" disk;
  actual ← CustomAssets.vocab restored_model;
  _ ← py_assert (String.eqb actual "Mary had a little lamb.");
  Some (disk, model, restored_model).

(** Calling a model on an input builds it for the shape of that input.
    [load_model] constructs the custom layer from [get_config()], that is
    with the [units] of the saved one. *)
Definition custom_build_example (disk : gmap string archive) :=
  let custom_layer := CustomBuild.init 16 in
  custom_layer ← CustomBuild.build custom_layer (PyTuple [PyInt 8])
                                   (PyStr "random_normal");
  let model := {| seq_base := KerasLayer.init; seq_layer0 := custom_layer |} in
  let model := {| seq_base := KerasLayer.build (seq_base model)
                                (PyTuple [PyInt 16; PyInt 8]);
                  seq_layer0 := seq_layer0 model |} in
  disk ← model_save model "custom_build_model.keras" disk;
  restored_model ←
    load_model {| seq_base := KerasLayer.init;
                  seq_layer0 := CustomBuild.init (CustomBuild.units custom_layer) |}
               "custom_build_model.keras" disk;
  init ← CustomBuild.layer_init (seq_layer0 restored_model);
  _ ← py_assert (pyval_eqb init (PyStr "random_normal"));
  _ ← py_assert (pyval_eqb (PyBool (KerasLayer.built (seq_base restored_model)))
                           (PyBool true));
  Some (disk, model, restored_model).

(** [model.fit] leaves the three compile attributes alone. *)
Definition custom_compile_example (disk : gmap string archive) :=
  let model := CustomCompile.init in
  let model := CustomCompile.compile model (PyStr "SGD")
                 (PyFunction "small_square_sum_loss")
                 (PyList [PyStr "accuracy"; PyFunction "mean_pred"]) in
  disk ← model_save model "custom_compile_model.keras" disk;
  restored_model ← load_model CustomCompile.init
                              "custom_compile_model.keras" disk;
  a1 ← CustomCompile.model_optimizer model;
  b1 ← CustomCompile.model_optimizer restored_model;
  _ ← py_assert (pyval_eqb a1 b1);
  a2 ← CustomCompile.loss_fn model;
  b2 ← CustomCompile.loss_fn restored_model;
  _ ← py_assert (pyval_eqb a2 b2);
  a3 ← CustomCompile.loss_metrics model;
  b3 ← CustomCompile.loss_metrics restored_model;
  _ ← py_assert (pyval_eqb a3 b3);
  Some (disk, model, restored_model).

(** The code cells in order; what is left on disk at the end. *)
Definition run_all_cells
    (trained rebuilt : CustomVariables.LayerWithCustomVariables ndarray)
    (disk : gmap string archive) : option (gmap string archive) :=
  r1 ← custom_vars_example trained rebuilt disk;
  r2 ← custom_assets_example r1.1.1;
  r3 ← custom_build_example r2.1.1;
  r4 ← custom_compile_example r3.1.1;
  Some r4.1.1.

End Framework.
Arguments archive : clear implicits.

End Notebook.

(** * Properties *)

(** ** The registered loss and metric *)

Section LossFacts.
Import Losses.
Local Open Scope Qc_scope.

Lemma zip_with_swap {A B : Type} (f : A → A → B) (x y : list A) :
  (∀ a b, f a b = f b a) → zip_with f x y = zip_with f y x.
Proof.
  intros Hf. revert y. induction x as [|a x IH]; intros [|b y]; simpl; auto.
  by rewrite Hf, IH.
Qed.

Lemma row_sum_div (c : Qc) (row : list Qc) :
  foldr Qcplus 0 (map (fun a => a / c) row) = foldr Qcplus 0 row / c.
Proof.
  induction row as [|a row IH]; simpl.
  - unfold Qcdiv. ring.
  - rewrite IH. unfold Qcdiv. ring.
Qed.

Lemma square_as_power (p t : list Qc) :
  zip_with (fun a b => (a - b) * (a - b)) p t
  = zip_with (fun a b => (a - b) ^ 2) p t.
Proof.
  revert t. induction p as [|a p IH]; intros [|b t]; simpl; auto.
  rewrite IH. f_equal. ring.
Qed.

Lemma reduce_sum_div_squares (c : Qc) (x y : tensor) :
  reduce_sum_axis1
    (div_scalar (zip_with (zip_with (fun a b => (a - b) * (a - b))) x y) c)
  = zip_with (fun p t => foldr Qcplus 0 (zip_with (fun a b => (a - b) ^ 2) p t) / c)
      x y.
Proof.
  unfold reduce_sum_axis1, div_scalar.
  revert y. induction x as [|p x IH]; intros [|t y]; simpl; auto.
  by rewrite IH, row_sum_div, square_as_power.
Qed.

Lemma squared_difference_sym (x y : tensor) :
  squared_difference x y = squared_difference y x.
Proof.
  unfold squared_difference.
  destruct (decide (row_lengths x = row_lengths y)) as [E|E].
  - rewrite decide_True by done. f_equal.
    apply zip_with_swap. intros p t. apply zip_with_swap. intros a b. ring.
  - rewrite decide_False by congruence. done.
Qed.

(** C9. On tensors of one shape, [small_square_sum_loss y_true y_pred] is,
    in exact arithmetic, the sum along axis 1 of [(y_pred - y_true)^2]
    divided by 10, and swapping the two arguments does not change it. *)
Theorem small_square_sum_loss_exact (y_true y_pred : tensor) :
  row_lengths y_true = row_lengths y_pred →
  small_square_sum_loss y_true y_pred = Some (sum_of_squares_over_ten y_true y_pred)
  ∧ small_square_sum_loss y_true y_pred = small_square_sum_loss y_pred y_true.
Proof.
  intros Hshape. split.
  - unfold small_square_sum_loss, squared_difference, sum_of_squares_over_ten.
    rewrite decide_True by done. simpl. f_equal.
    apply reduce_sum_div_squares.
  - unfold small_square_sum_loss.
    by rewrite (squared_difference_sym y_pred y_true).
Qed.

Lemma small_square_sum_loss_exact_witness :
  row_lengths [[Qc_of_nat 1; Qc_of_nat 2]] = row_lengths [[Qc_of_nat 3; Qc_of_nat 5]]
  ∧ small_square_sum_loss [[Qc_of_nat 1; Qc_of_nat 2]] [[Qc_of_nat 3; Qc_of_nat 5]]
    = small_square_sum_loss [[Qc_of_nat 3; Qc_of_nat 5]] [[Qc_of_nat 1; Qc_of_nat 2]].
Proof.
  split; [reflexivity|].
  apply (small_square_sum_loss_exact [[Qc_of_nat 1; Qc_of_nat 2]]
           [[Qc_of_nat 3; Qc_of_nat 5]]).
  reflexivity.
Defined.

End LossFacts.

(** ** Python strings and files *)

Section StringFacts.
Import PyStr.

Lemma length_app (s1 s2 : string) :
  String.length (s1 +:+ s2) = String.length s1 + String.length s2.
Proof.
  induction s1 as [|c s1 IH]; [done|].
  change (String c s1 +:+ s2) with (String c (s1 +:+ s2)). simpl. by rewrite IH.
Qed.

Lemma prefix_length (p s : string) :
  String.prefix p s = true → String.length p ≤ String.length s.
Proof.
  revert s. induction p as [|a p IH]; intros [|b s]; simpl; try done; try lia.
  destruct (ascii_dec a b); [|done]. intros H%IH. lia.
Qed.

Lemma drop_str_length_le (n : nat) (s : string) :
  n ≤ String.length s → String.length (drop_str n s) = String.length s - n.
Proof.
  revert s. induction n as [|n IH]; intros [|c s]; simpl; try lia.
  intros H. apply IH. lia.
Qed.

(** Where [old] does not occur, [replace] copies the string. *)
Lemma replace_ne_absent (c0 : ascii) (old' new s : string) :
  contains (String c0 old') s = false → replace_ne c0 old' new s = s.
Proof.
  induction s as [|c s IH]; [by simp replace_ne|].
  intros H. simp replace_ne. simpl in H.
  apply orb_false_iff in H as [Hp Hc]. simpl. rewrite Hp.
  f_equal. auto.
Qed.

(** With a [new] longer than [old], [replace] never shortens the string, and
    lengthens it as soon as [old] occurs. *)
Lemma replace_ne_length (c0 : ascii) (old' new s : string) :
  String.length (String c0 old') < String.length new →
  String.length s ≤ String.length (replace_ne c0 old' new s)
  ∧ (contains (String c0 old') s = true →
     String.length s < String.length (replace_ne c0 old' new s)).
Proof.
  intros Hlen. simpl in Hlen.
  remember (String.length s) as n eqn:Hn. revert s Hn.
  induction (lt_wf n) as [n _ IH]. intros s ->.
  destruct s as [|c s].
  { simp replace_ne. split; [done|]. simpl. done. }
  simp replace_ne.
  destruct (String.prefix (String c0 old') (String c s)) eqn:Hp.
  - pose proof (prefix_length _ _ Hp) as Hle. simpl in Hle.
    pose proof (drop_str_length_le (String.length old') s ltac:(lia)) as Hd.
    destruct (IH (String.length (drop_str (String.length old') s))
                ltac:(simpl; lia) (drop_str (String.length old') s) eq_refl)
      as [IH1 _].
    rewrite length_app. simpl. split; [lia|]. intros _. lia.
  - destruct (IH (String.length s) ltac:(simpl; lia) s eq_refl) as [IH1 IH2].
    split; [simpl; lia|]. intros H.
    change (String.prefix (String c0 old') (String c s)
            || contains (String c0 old') s = true) in H.
    rewrite Hp in H. apply IH2 in H. simpl. lia.
Qed.

Lemma replace_unchanged_iff (s old new : string) :
  old ≠ "" → String.length old < String.length new →
  replace s old new = s ↔ contains old s = false.
Proof.
  intros Hne Hlen. destruct old as [|c0 old']; [done|]. unfold replace.
  split.
  - intros Heq. destruct (contains (String c0 old') s) eqn:Hc; [|done].
    destruct (replace_ne_length c0 old' new s Hlen) as [_ Hlt].
    specialize (Hlt Hc). rewrite Heq in Hlt. lia.
  - apply replace_ne_absent.
Qed.

(** A text without carriage returns is read back as it was written. *)
Lemma universal_newlines_without_cr (s : string) :
  contains (String CR "") s = false → universal_newlines s = s.
Proof.
  induction s as [|c s IH]; [done|].
  intros H. simpl in H. apply orb_false_iff in H as [Hp Hc].
  simpl. destruct (decide (c = CR)) as [->|_].
  - exfalso. unfold CR in Hp. by destruct s.
  - f_equal. auto.
Qed.

Lemma read_after_write (path text : string) (fs : filesystem) :
  FileIO.read_text path (FileIO.write_text path text fs)
  = Some (universal_newlines text).
Proof.
  unfold FileIO.read_text, FileIO.write_text. by rewrite lookup_insert_eq.
Qed.

End StringFacts.

(** ** [save_assets()] and [load_assets()] *)

Section AssetFacts.
Import PyStr CustomAssets.

Lemma save_assets_then_load_assets (v inner_path : string)
    (self other : LayerWithCustomAssets) (fs : filesystem) :
  vocab self = Some v →
  save_assets self inner_path fs ≫= load_assets other inner_path
  = Some {| vocab := Some (replace (universal_newlines v) "<unk>" "little") |}.
Proof.
  intros Hv. unfold save_assets, load_assets. rewrite Hv. simpl.
  by rewrite read_after_write.
Qed.

(** C3, as stated, fails. The vocab made of one carriage return has no
    occurrence of "<unk>"; saved and loaded, it comes back as one line feed,
    which is neither the saved string with "<unk>" replaced nor the saved
    string. *)
Lemma save_assets_load_assets_carriage_return :
  contains "<unk>" (String CR "") = false
  ∧ save_assets (init (Some (String CR ""))) "assets" ∅
      ≫= load_assets (init None) "assets"
    = Some (init (Some (String LF "")))
  ∧ save_assets (init (Some (String CR ""))) "assets" ∅
      ≫= load_assets (init None) "assets"
    ≠ Some (init (Some (replace (String CR "") "<unk>" "little")))
  ∧ save_assets (init (Some (String CR ""))) "assets" ∅
      ≫= load_assets (init None) "assets"
    ≠ Some (init (Some (String CR ""))).
Proof.
  split; [reflexivity|].
  rewrite (save_assets_then_load_assets (String CR "")) by reflexivity.
  split; [reflexivity|]. split; intros [=].
Qed.

(** C3, amended. Saving a layer whose vocab is [v] and loading on the same
    directory succeeds and sets the vocab to [v] as a text-mode read returns
    it, with every "<unk>" replaced by "little". When [v] has no carriage
    return that is [v] with every "<unk>" replaced by "little", and then the
    vocab survives the cycle unchanged exactly when "<unk>" does not occur
    in [v]. *)
Theorem save_assets_load_assets_replaces (v inner_path : string)
    (other : LayerWithCustomAssets) (fs : filesystem) :
  ∃ fs' restored,
    save_assets (init (Some v)) inner_path fs = Some fs'
    ∧ load_assets other inner_path fs' = Some restored
    ∧ vocab restored
      = Some (replace (universal_newlines v) "<unk>" "little")
    ∧ (contains (String CR "") v = false →
       vocab restored = Some (replace v "<unk>" "little")
       ∧ (vocab restored = Some v ↔ contains "<unk>" v = false)).
Proof.
  pose proof (save_assets_then_load_assets v inner_path (init (Some v)) other fs
                eq_refl) as H.
  destruct (save_assets (init (Some v)) inner_path fs) as [fs'|] eqn:Hs; [|done].
  simpl in H. exists fs', {| vocab := Some (replace (universal_newlines v) "<unk>" "little") |}.
  split; [done|]. split; [done|]. split; [done|].
  intros Hcr. simpl. rewrite (universal_newlines_without_cr v Hcr).
  split; [done|].
  assert (replace v "<unk>" "little" = v ↔ contains "<unk>" v = false) as Hiff.
  { apply replace_unchanged_iff; [done|simpl; lia]. }
  split.
  - intros [= Heq]. by apply Hiff.
  - intros Habs. f_equal. by apply Hiff.
Qed.

Lemma save_assets_load_assets_replaces_witness :
  ∃ fs' restored,
    save_assets (init (Some "Mary had a <unk> lamb.")) "assets" ∅ = Some fs'
    ∧ load_assets (init None) "assets" fs' = Some restored
    ∧ vocab restored = Some "Mary had a little lamb.".
Proof.
  destruct (save_assets_load_assets_replaces "Mary had a <unk> lamb." "assets"
              (init None) ∅) as (fs' & restored & Hs & Hl & _ & Hcr).
  exists fs', restored. split; [exact Hs|]. split; [exact Hl|].
  destruct (Hcr eq_refl) as [Hv _]. exact Hv.
Defined.

End AssetFacts.

(** ** [save_own_variables()] and [load_own_variables()] *)

Section VariableFacts.
Import CustomVariables.
Context {ndarray : Type}.
Implicit Types (store : gmap string ndarray) (ws : list ndarray).

(** The key of a weight is made of digits, so it is never "variables". *)
Lemma pretty_N_go_not_v (x : N) (s : string) :
  (∀ s', s ≠ String "v" s') → ∀ s', pretty_N_go x s ≠ String "v" s'.
Proof.
  revert s. induction (N.lt_wf_0 x) as [x _ IH]; intros s Hs s'.
  destruct (decide (x = 0)%N) as [->|Hx]; [by rewrite pretty_N_go_0|].
  rewrite pretty_N_go_step by lia. apply IH.
  - apply N.div_lt; lia.
  - intros s''. unfold pretty_N_char. by repeat case_match.
Qed.

Lemma pretty_nat_not_variables (i : nat) : pretty i ≠ "variables".
Proof.
  unfold pretty, pretty_nat, pretty, pretty_N.
  case_decide; [done|]. by apply pretty_N_go_not_v.
Qed.

Lemma write_from_other (key : string) (k : nat) ws store :
  (∀ j, j < length ws → key ≠ pretty (k + j)) →
  write_from k ws store !! key = store !! key.
Proof.
  revert k store. induction ws as [|w ws IH]; intros k store Hkey; [done|].
  unfold write_from. simpl. fold (write_from (S k) ws (<[pretty k := w]> store)).
  rewrite IH.
  - apply lookup_insert_ne. specialize (Hkey 0). rewrite Nat.add_0_r in Hkey.
    intros E. apply Hkey; [simpl; lia|done].
  - intros j Hj. replace (S k + j) with (k + S j) by lia.
    apply Hkey. simpl. lia.
Qed.

Lemma write_from_index (k j : nat) ws store (w : ndarray) :
  ws !! j = Some w → write_from k ws store !! pretty (k + j) = Some w.
Proof.
  revert k j store. induction ws as [|w0 ws IH]; intros k j store Hj; [done|].
  unfold write_from. simpl. fold (write_from (S k) ws (<[pretty k := w0]> store)).
  destruct j as [|j]; simpl in Hj.
  - injection Hj as ->. rewrite Nat.add_0_r. rewrite write_from_other.
    + apply lookup_insert_eq.
    + intros j _ E. apply (inj pretty) in E. lia.
  - replace (k + S j) with (S k + j) by lia. by apply IH.
Qed.

Lemma Layer_save_own_variables_index (self : LayerWithCustomVariables ndarray)
    store (i : nat) (w : ndarray) :
  weights self !! i = Some w →
  Layer_save_own_variables self store !! pretty i = Some w.
Proof. apply (write_from_index 0 i). Qed.

Lemma Layer_save_own_variables_other (self : LayerWithCustomVariables ndarray)
    store (key : string) :
  (∀ j, j < length (weights self) → key ≠ pretty j) →
  Layer_save_own_variables self store !! key = store !! key.
Proof. intros H. by apply (write_from_other key 0). Qed.

Lemma save_own_variables_variables (self : LayerWithCustomVariables ndarray) store :
  save_own_variables self store !! "variables" = Some (stored_variables self).
Proof. apply lookup_insert_eq. Qed.

Lemma save_own_variables_index (self : LayerWithCustomVariables ndarray)
    store (i : nat) (w : ndarray) :
  weights self !! i = Some w →
  save_own_variables self store !! pretty i = Some w.
Proof.
  intros H. unfold save_own_variables.
  rewrite lookup_insert_ne by (apply not_eq_sym, pretty_nat_not_variables).
  by apply Layer_save_own_variables_index.
Qed.

(** The keys the hook writes are "variables" and the indices of the
    weights; every other key of the store is left as it was. *)
Lemma save_own_variables_other (self : LayerWithCustomVariables ndarray)
    store (key : string) :
  key ≠ "variables" →
  (∀ j, j < length (weights self) → key ≠ pretty j) →
  save_own_variables self store !! key = store !! key.
Proof.
  intros H1 H2. unfold save_own_variables.
  rewrite lookup_insert_ne by done. by apply Layer_save_own_variables_other.
Qed.

Lemma assign_weights_from (k : nat) (targets saved : list ndarray) store :
  length targets = length saved →
  (∀ j w, saved !! j = Some w → store !! pretty (k + j) = Some w) →
  mapM (fun iv : nat * ndarray => store !! pretty (fst iv)) (enumerate_from k targets)
  = Some saved.
Proof.
  revert k saved. induction targets as [|t targets IH]; intros k [|w saved] Hlen Hs;
    try done.
  simpl. rewrite <- (Nat.add_0_r k) at 1. rewrite (Hs 0 w eq_refl). simpl.
  rewrite (IH (S k) saved); [done|simpl in Hlen; lia|].
  intros j w' Hj. replace (S k + j) with (k + S j) by lia. by apply Hs.
Qed.

Lemma load_after_save (self other : LayerWithCustomVariables ndarray) store :
  length (weights other) = length (weights self) →
  load_own_variables other (save_own_variables self store)
  = Some {| _trainable_weights :=
              take (length (_trainable_weights other)) (weights self);
            _non_trainable_weights :=
              drop (length (_trainable_weights other)) (weights self);
            stored_variables := stored_variables self |}.
Proof.
  intros Hlen. unfold load_own_variables.
  rewrite save_own_variables_variables. simpl.
  unfold assign_weights, enumerate.
  rewrite (assign_weights_from 0 (weights other) (weights self)); [done|done|].
  intros j w Hj. by apply save_own_variables_index.
Qed.

End VariableFacts.

(** ** [get_build_config()] and [build_from_config()] *)

Section BuildFacts.
Import CustomBuild.

Lemma build_from_config_calls_build (self : LayerWithCustomBuild) (cfg : config)
    (input_shape init : pyval) :
  cfg !! "input_shape" = Some input_shape →
  cfg !! "layer_init" = Some init →
  build_from_config self cfg = build self input_shape init.
Proof. intros H1 H2. unfold build_from_config. by rewrite H1, H2. Qed.

End BuildFacts.

(** ** [get_compile_config()] and [compile_from_config()] *)

Section CompileFacts.
Import CustomCompile.
Variable deserialize_keras_object : pyval → option pyval.

Lemma compile_from_config_calls_compile (self : ModelWithCustomCompile)
    (cfg : config) (o l m o' l' m' : pyval) :
  cfg !! "model_optimizer" = Some o → deserialize_keras_object o = Some o' →
  cfg !! "loss_fn" = Some l → deserialize_keras_object l = Some l' →
  cfg !! "metric" = Some m → deserialize_keras_object m = Some m' →
  compile_from_config deserialize_keras_object self cfg
  = Some (compile self o' l' m').
Proof.
  intros Ho Ho' Hl Hl' Hm Hm'. unfold compile_from_config.
  rewrite Ho, Hl, Hm. simpl. by rewrite Ho', Hl', Hm'.
Qed.

Lemma get_compile_config_after_compile (self : ModelWithCustomCompile)
    (optimizer loss metrics : pyval) :
  get_compile_config (compile self optimizer loss metrics)
  = Some {[ "model_optimizer" := optimizer; "loss_fn" := loss;
            "metric" := metrics ]}.
Proof. reflexivity. Qed.

End CompileFacts.

(** ** The example scripts *)

Lemma pyval_eqb_refl : ∀ v : pyval, pyval_eqb v v = true.
Proof.
  fix IH 1. intros [| b | z | s | s | items | items]; simpl.
  - done.
  - by destruct b.
  - apply Z.eqb_refl.
  - apply String.eqb_refl.
  - apply String.eqb_refl.
  - induction items as [|x items IHl]; [done|]. by rewrite IH, IHl.
  - induction items as [|x items IHl]; [done|]. by rewrite IH, IHl.
Qed.

Lemma example_vocab_replaced :
  PyStr.replace (PyStr.universal_newlines "Mary had a <unk> lamb.") "<unk>" "little"
  = "Mary had a little lamb.".
Proof. reflexivity. Qed.

(** Replace the closed call [f a b] of the goal by its value. *)
Ltac run_closed f :=
  match goal with
  | |- context [f ?a ?b] =>
      let r := eval vm_compute in (f a b) in
      change (f a b) with r
  end.

Section ScriptFacts.
Import Notebook.
Context {ndarray : Type}.
Variable inner_path : string.
Variable serialize_keras_object : pyval → pyval.
Variable deserialize_keras_object : pyval → option pyval.
Variable allclose : ndarray → ndarray → bool.

(** What the scripts need of the framework: an array is close to itself,
    and deserializing what was serialized gives the value back. *)
Hypothesis allclose_refl : ∀ a, allclose a a = true.
Hypothesis deserialize_serialize :
  ∀ v, deserialize_keras_object (serialize_keras_object v) = Some v.

Implicit Types (disk : gmap string (archive ndarray)).
Implicit Types (trained rebuilt : CustomVariables.LayerWithCustomVariables ndarray).

Lemma custom_vars_example_runs trained rebuilt disk :
  length (CustomVariables.weights rebuilt) = length (CustomVariables.weights trained) →
  ∃ arc restored,
    custom_vars_example allclose trained rebuilt disk
    = Some (<["custom_vars_model.keras" := arc]> disk, trained, restored)
    ∧ arc_assets arc = ∅
    ∧ CustomVariables.stored_variables restored
      = CustomVariables.stored_variables trained
    ∧ CustomVariables.weights restored = CustomVariables.weights trained.
Proof.
  intros Hlen. unfold custom_vars_example, model_save, load_model. simpl.
  rewrite lookup_insert_eq. simpl.
  rewrite (load_after_save trained rebuilt ∅ Hlen). simpl.
  rewrite allclose_refl. simpl.
  eexists _, _. split; [reflexivity|]. split; [done|]. split; [done|].
  apply take_drop.
Qed.

Lemma custom_assets_example_runs disk :
  ∃ arc,
    custom_assets_example (ndarray := ndarray) inner_path disk
    = Some (<["custom_assets_model.keras" := arc]> disk,
            CustomAssets.init (Some "Mary had a <unk> lamb."),
            CustomAssets.init (Some "Mary had a little lamb."))
    ∧ arc_assets arc
      = {[ PyStr.os_path_join inner_path "vocabulary.txt"
           := "Mary had a <unk> lamb." ]}.
Proof.
  unfold custom_assets_example, model_save, load_model. simpl.
  rewrite lookup_insert_eq. simpl.
  unfold CustomAssets.load_assets.
  rewrite read_after_write. cbv beta iota delta [mbind option_bind].
  rewrite example_vocab_replaced. simpl.
  eexists. split; reflexivity.
Qed.

Lemma custom_build_example_runs disk :
  ∃ arc model restored,
    custom_build_example (ndarray := ndarray) disk
    = Some (<["custom_build_model.keras" := arc]> disk, model, restored)
    ∧ arc_assets arc = ∅
    ∧ CustomBuild.layer_init (seq_layer0 model) = Some (PyStr "random_normal")
    ∧ KerasLayer.built (seq_base model) = true
    ∧ CustomBuild.layer_init (seq_layer0 restored) = Some (PyStr "random_normal")
    ∧ KerasLayer.built (seq_base restored) = true.
Proof.
  unfold custom_build_example, model_save, load_model. simpl.
  rewrite lookup_insert_eq. simpl.
  run_closed KerasLayer.build_from_config.
  run_closed CustomBuild.build_from_config. simpl.
  eexists _, _, _. split; [reflexivity|]. done.
Qed.

Lemma custom_compile_example_runs disk :
  ∃ arc model restored,
    custom_compile_example (ndarray := ndarray) serialize_keras_object
      deserialize_keras_object disk
    = Some (<["custom_compile_model.keras" := arc]> disk, model, restored)
    ∧ arc_assets arc = ∅
    ∧ CustomCompile.model_optimizer model = Some (PyStr "SGD")
    ∧ CustomCompile.loss_fn model = Some (PyFunction "small_square_sum_loss")
    ∧ CustomCompile.loss_metrics model
      = Some (PyList [PyStr "accuracy"; PyFunction "mean_pred"])
    ∧ CustomCompile.model_optimizer restored = CustomCompile.model_optimizer model
    ∧ CustomCompile.loss_fn restored = CustomCompile.loss_fn model
    ∧ CustomCompile.loss_metrics restored = CustomCompile.loss_metrics model.
Proof.
  unfold custom_compile_example, model_save, load_model.
  cbn [on_save on_load custom_compile_saveable].
  rewrite get_compile_config_after_compile.
  cbv beta iota delta [mbind option_bind].
  rewrite lookup_insert_eq.
  cbn [arc_compile_config].
  erewrite (compile_from_config_calls_compile deserialize_keras_object);
    [| rewrite lookup_fmap; reflexivity | apply deserialize_serialize
     | rewrite lookup_fmap; reflexivity | apply deserialize_serialize
     | rewrite lookup_fmap; reflexivity | apply deserialize_serialize ].
  cbn [CustomCompile.model_optimizer CustomCompile.loss_fn
       CustomCompile.loss_metrics CustomCompile.compile].
  rewrite !pyval_eqb_refl. cbn [py_assert].
  eexists _, _, _. split; [reflexivity|]. done.
Qed.

Lemma run_all_cells_runs trained rebuilt disk :
  length (CustomVariables.weights rebuilt) = length (CustomVariables.weights trained) →
  ∃ arc1 arc2 arc3 arc4,
    run_all_cells inner_path serialize_keras_object deserialize_keras_object
      allclose trained rebuilt disk
    = Some (<["custom_compile_model.keras" := arc4]>
            (<["custom_build_model.keras" := arc3]>
             (<["custom_assets_model.keras" := arc2]>
              (<["custom_vars_model.keras" := arc1]> disk)))).
Proof.
  intros Hlen. unfold run_all_cells.
  destruct (custom_vars_example_runs trained rebuilt disk Hlen)
    as (arc1 & r1 & -> & _). cbn [mbind option_bind fst].
  destruct (custom_assets_example_runs (<["custom_vars_model.keras" := arc1]> disk))
    as (arc2 & -> & _). cbn [mbind option_bind fst].
  destruct (custom_build_example_runs
              (<["custom_assets_model.keras" := arc2]>
               (<["custom_vars_model.keras" := arc1]> disk)))
    as (arc3 & m3 & r3 & -> & _). cbn [mbind option_bind fst].
  destruct (custom_compile_example_runs
              (<["custom_build_model.keras" := arc3]>
               (<["custom_assets_model.keras" := arc2]>
                (<["custom_vars_model.keras" := arc1]> disk))))
    as (arc4 & m4 & r4 & -> & _). cbn [mbind option_bind fst].
  by eexists _, _, _, _.
Qed.

(** C1, amended. Every example script runs through its asserts. In the
    scripts for the variable, build and compile hooks the asserted
    attributes of the restored model ([stored_variables]; [layer_init] and
    [built]; [model_optimizer], [loss_fn] and [loss_metrics]) equal those of
    the model at save time. In the script for the asset hooks the restored
    vocab is "Mary had a little lamb.", the value its assert names: the
    saved vocab "Mary had a <unk> lamb." with "<unk>" replaced by "little",
    and not the saved vocab. *)
Theorem asserts_of_the_examples trained rebuilt disk :
  length (CustomVariables.weights rebuilt) = length (CustomVariables.weights trained) →
  (∃ disk' model restored,
     custom_vars_example allclose trained rebuilt disk = Some (disk', model, restored)
     ∧ CustomVariables.stored_variables restored
       = CustomVariables.stored_variables model)
  ∧ (∃ disk' model restored,
       custom_build_example disk = Some (disk', model, restored)
       ∧ CustomBuild.layer_init (seq_layer0 restored)
         = CustomBuild.layer_init (seq_layer0 model)
       ∧ KerasLayer.built (seq_base restored) = KerasLayer.built (seq_base model))
  ∧ (∃ disk' model restored,
       custom_compile_example serialize_keras_object deserialize_keras_object disk
       = Some (disk', model, restored)
       ∧ CustomCompile.model_optimizer restored = CustomCompile.model_optimizer model
       ∧ CustomCompile.loss_fn restored = CustomCompile.loss_fn model
       ∧ CustomCompile.loss_metrics restored = CustomCompile.loss_metrics model)
  ∧ (∃ disk' model restored,
       custom_assets_example inner_path disk = Some (disk', model, restored)
       ∧ CustomAssets.vocab model = Some "Mary had a <unk> lamb."
       ∧ CustomAssets.vocab restored = Some "Mary had a little lamb."
       ∧ CustomAssets.vocab restored
         = (fun v => PyStr.replace v "<unk>" "little") <$> CustomAssets.vocab model
       ∧ CustomAssets.vocab restored ≠ CustomAssets.vocab model).
Proof.
  intros Hlen. split; [|split; [|split]].
  - destruct (custom_vars_example_runs trained rebuilt disk Hlen)
      as (arc & restored & -> & _ & Hsv & _).
    by eexists _, _, _.
  - destruct (custom_build_example_runs disk)
      as (arc & model & restored & -> & _ & H1 & H2 & H3 & H4).
    eexists _, _, _. split; [done|]. by rewrite H1, H2, H3, H4.
  - destruct (custom_compile_example_runs disk)
      as (arc & model & restored & -> & _ & _ & _ & _ & H1 & H2 & H3).
    by eexists _, _, _.
  - destruct (custom_assets_example_runs disk) as (arc & -> & _).
    eexists _, _, _. split; [done|]. by repeat split.
Qed.

(** C4, amended. Each example script leaves the disk as it found it except
    at one archive path of its own, where it saves and from where it loads:
    "custom_vars_model.keras", "custom_assets_model.keras",
    "custom_build_model.keras" and "custom_compile_model.keras", four
    different paths, which are what the code cells together add to the
    disk. The one file below the directory of the asset hooks is
    "vocabulary.txt", in the archive of the asset example; the other
    archives hold no asset. *)
Theorem each_example_saves_to_its_own_archive trained rebuilt disk :
  length (CustomVariables.weights rebuilt) = length (CustomVariables.weights trained) →
  (∃ arc model restored,
     custom_vars_example allclose trained rebuilt disk
     = Some (<["custom_vars_model.keras" := arc]> disk, model, restored)
     ∧ arc_assets arc = ∅)
  ∧ (∃ arc model restored,
       custom_assets_example inner_path disk
       = Some (<["custom_assets_model.keras" := arc]> disk, model, restored)
       ∧ arc_assets arc
         = {[ PyStr.os_path_join inner_path "vocabulary.txt"
              := "Mary had a <unk> lamb." ]})
  ∧ (∃ arc model restored,
       custom_build_example disk
       = Some (<["custom_build_model.keras" := arc]> disk, model, restored)
       ∧ arc_assets arc = ∅)
  ∧ (∃ arc model restored,
       custom_compile_example serialize_keras_object deserialize_keras_object disk
       = Some (<["custom_compile_model.keras" := arc]> disk, model, restored)
       ∧ arc_assets arc = ∅)
  ∧ (∃ disk',
       run_all_cells inner_path serialize_keras_object deserialize_keras_object
         allclose trained rebuilt disk = Some disk'
       ∧ dom disk'
         = dom disk ∪ {[ "custom_vars_model.keras"; "custom_assets_model.keras";
                         "custom_build_model.keras"; "custom_compile_model.keras" ]})
  ∧ NoDup [ "custom_vars_model.keras"; "custom_assets_model.keras";
            "custom_build_model.keras"; "custom_compile_model.keras" ].
Proof.
  intros Hlen. repeat split.
  - destruct (custom_vars_example_runs trained rebuilt disk Hlen)
      as (arc & restored & -> & Ha & _).
    by eexists _, _, _.
  - destruct (custom_assets_example_runs disk) as (arc & -> & Ha).
    by eexists _, _, _.
  - destruct (custom_build_example_runs disk)
      as (arc & model & restored & -> & Ha & _).
    by eexists _, _, _.
  - destruct (custom_compile_example_runs disk)
      as (arc & model & restored & -> & Ha & _).
    by eexists _, _, _.
  - destruct (run_all_cells_runs trained rebuilt disk Hlen)
      as (arc1 & arc2 & arc3 & arc4 & ->).
    eexists. split; [reflexivity|].
    rewrite !dom_insert_L. apply set_eq. intros q.
    rewrite !elem_of_union, !elem_of_singleton. tauto.
  - by apply (bool_decide_unpack _).
Qed.

End ScriptFacts.

(** C1, as stated, fails. In the asset example the original layer's vocab
    at save time is "Mary had a <unk> lamb.", the script runs through its
    assert, and the restored layer's vocab is not the original's. *)
Lemma restored_vocab_is_not_the_saved_vocab :
  ∃ disk' model restored,
    Notebook.custom_assets_example (ndarray := nat) "assets" ∅
    = Some (disk', model, restored)
    ∧ CustomAssets.vocab model = Some "Mary had a <unk> lamb."
    ∧ CustomAssets.vocab restored ≠ CustomAssets.vocab model.
Proof.
  destruct (custom_assets_example_runs (ndarray := nat) "assets" ∅)
    as (arc & -> & _).
  eexists _, _, _. split; [reflexivity|]. split; done.
Qed.

Lemma asserts_of_the_examples_witness :
  length (CustomVariables.weights
            {| CustomVariables._trainable_weights := [0; 0];
               CustomVariables._non_trainable_weights := [0];
               CustomVariables.stored_variables := 0 |})
  = length (CustomVariables.weights
              {| CustomVariables._trainable_weights := [11; 12];
                 CustomVariables._non_trainable_weights := [13];
                 CustomVariables.stored_variables := 7 |})
  ∧ ∃ disk' model restored,
      Notebook.custom_assets_example (ndarray := nat) "assets" ∅
      = Some (disk', model, restored)
      ∧ CustomAssets.vocab restored = Some "Mary had a little lamb.".
Proof.
  split; [reflexivity|].
  destruct (asserts_of_the_examples "assets" id Some Nat.eqb
              Nat.eqb_refl (fun v => eq_refl)
              {| CustomVariables._trainable_weights := [11; 12];
                 CustomVariables._non_trainable_weights := [13];
                 CustomVariables.stored_variables := 7 |}
              {| CustomVariables._trainable_weights := [0; 0];
                 CustomVariables._non_trainable_weights := [0];
                 CustomVariables.stored_variables := 0 |}
              ∅ eq_refl)
    as (_ & _ & _ & disk' & model & restored & Hrun & _ & Hv & _).
  exists disk', model, restored. split; [exact Hrun|exact Hv].
Defined.

(** C4, as stated, fails. Run from an empty disk, the code cells leave
    archives that no single path accounts for. *)
Lemma model_save_paths_are_not_one :
  ∃ disk',
    Notebook.run_all_cells "assets" id Some Nat.eqb
      {| CustomVariables._trainable_weights := [11; 12];
         CustomVariables._non_trainable_weights := [13];
         CustomVariables.stored_variables := 7 |}
      {| CustomVariables._trainable_weights := [0; 0];
         CustomVariables._non_trainable_weights := [0];
         CustomVariables.stored_variables := 0 |}
      ∅ = Some disk'
    ∧ ¬ ∃ p : string, dom disk' ⊆ {[ p ]}.
Proof.
  destruct (run_all_cells_runs "assets" id Some Nat.eqb
              Nat.eqb_refl (fun v => eq_refl)
              {| CustomVariables._trainable_weights := [11; 12];
                 CustomVariables._non_trainable_weights := [13];
                 CustomVariables.stored_variables := 7 |}
              {| CustomVariables._trainable_weights := [0; 0];
                 CustomVariables._non_trainable_weights := [0];
                 CustomVariables.stored_variables := 0 |}
              ∅ eq_refl)
    as (arc1 & arc2 & arc3 & arc4 & ->).
  eexists. split; [reflexivity|]. intros [p Hp].
  rewrite !dom_insert_L in Hp.
  assert ("custom_vars_model.keras" = p) as H1 by set_solver.
  assert ("custom_compile_model.keras" = p) as H2 by set_solver.
  congruence.
Qed.

Lemma each_example_saves_to_its_own_archive_witness :
  length (CustomVariables.weights
            {| CustomVariables._trainable_weights := [0; 0];
               CustomVariables._non_trainable_weights := [0];
               CustomVariables.stored_variables := 0 |})
  = length (CustomVariables.weights
              {| CustomVariables._trainable_weights := [11; 12];
                 CustomVariables._non_trainable_weights := [13];
                 CustomVariables.stored_variables := 7 |})
  ∧ ∃ disk',
      Notebook.run_all_cells "assets" id Some Nat.eqb
        {| CustomVariables._trainable_weights := [11; 12];
           CustomVariables._non_trainable_weights := [13];
           CustomVariables.stored_variables := 7 |}
        {| CustomVariables._trainable_weights := [0; 0];
           CustomVariables._non_trainable_weights := [0];
           CustomVariables.stored_variables := 0 |}
        ∅ = Some disk'
      ∧ dom disk'
        = ∅ ∪ {[ "custom_vars_model.keras"; "custom_assets_model.keras";
                 "custom_build_model.keras"; "custom_compile_model.keras" ]}.
Proof.
  split; [reflexivity|].
  destruct (each_example_saves_to_its_own_archive "assets" id Some Nat.eqb
              Nat.eqb_refl (fun v => eq_refl)
              {| CustomVariables._trainable_weights := [11; 12];
                 CustomVariables._non_trainable_weights := [13];
                 CustomVariables.stored_variables := 7 |}
              {| CustomVariables._trainable_weights := [0; 0];
                 CustomVariables._non_trainable_weights := [0];
                 CustomVariables.stored_variables := 0 |}
              ∅ eq_refl)
    as (_ & _ & _ & _ & (disk' & Hrun & Hdom) & _).
  exists disk'. split; [exact Hrun|]. rewrite Hdom. by rewrite dom_empty_L.
Defined.

(** * Further properties of the hooks *)

Section AssetCycleFacts.
Import PyStr CustomAssets.

Lemma has_char_app (c : ascii) (s1 s2 : string) :
  has_char c (s1 +:+ s2) = has_char c s1 || has_char c s2.
Proof.
  induction s1 as [|a s1 IH]; [done|].
  change (String a s1 +:+ s2) with (String a (s1 +:+ s2)). simpl.
  by rewrite IH, orb_assoc.
Qed.

Lemma contains_char (c : ascii) (s : string) :
  contains (String c "") s = has_char c s.
Proof.
  induction s as [|a s IH]; [done|]. simpl. rewrite IH. f_equal.
  destruct (ascii_dec c a) as [->|Hne].
  - rewrite bool_decide_eq_true_2 by done. by destruct s.
  - by rewrite bool_decide_eq_false_2.
Qed.

Lemma prefix_cons (a b : ascii) (p s : string) :
  String.prefix (String a p) (String b s) = true ↔ a = b ∧ String.prefix p s = true.
Proof.
  simpl. destruct (ascii_dec a b) as [->|Hne]; [tauto|].
  split; [done|]. by intros [? _].
Qed.

(** A pattern that shares no character with [new] matches at the head of
    the output only if it matched at the head of the input. *)
Lemma prefix_replace_ne (c0 : ascii) (old' new p s : string) :
  new ≠ "" →
  (∀ c, has_char c p = true → has_char c new = false) →
  String.prefix p (replace_ne c0 old' new s) = true →
  String.prefix p s = true.
Proof.
  intros Hnew. revert s. induction p as [|a p IH]; intros s Hp; [by destruct s|].
  destruct s as [|c s]; [by simp replace_ne|].
  simp replace_ne.
  destruct (String.prefix (String c0 old') (String c s)) eqn:Hm.
  - destruct new as [|n0 new']; [done|].
    change (String n0 new' +:+ ?r) with (String n0 (new' +:+ r)).
    intros [-> _]%prefix_cons. exfalso.
    specialize (Hp n0). simpl in Hp.
    rewrite !bool_decide_eq_true_2 in Hp by done. by specialize (Hp eq_refl).
  - intros [-> Hr]%prefix_cons. apply prefix_cons. split; [done|].
    apply IH; [|done]. intros c' Hc'. apply Hp. simpl. rewrite Hc'.
    apply orb_true_r.
Qed.

Lemma contains_app_new (old new r : string) (c0 : ascii) (old' : string) :
  old = String c0 old' →
  has_char c0 new = false →
  contains old r = false →
  contains old (new +:+ r) = false.
Proof.
  intros -> Hc Hr. induction new as [|n new IH]; [done|].
  change (String n new +:+ r) with (String n (new +:+ r)).
  simpl in Hc. apply orb_false_iff in Hc as [Hn Hc].
  apply bool_decide_eq_false in Hn.
  change (String.prefix (String c0 old') (String n (new +:+ r))
          || contains (String c0 old') (new +:+ r) = false).
  rewrite (IH Hc), orb_false_r.
  simpl. by destruct (ascii_dec c0 n).
Qed.

Lemma replace_ne_removes (c0 : ascii) (old' new s : string) :
  new ≠ "" →
  (∀ c, has_char c (String c0 old') = true → has_char c new = false) →
  contains (String c0 old') (replace_ne c0 old' new s) = false.
Proof.
  intros Hnew Hdisj.
  remember (String.length s) as n eqn:Hn. revert s Hn.
  induction (lt_wf n) as [n _ IH]. intros s ->.
  destruct s as [|c s]; [by simp replace_ne|].
  simp replace_ne.
  destruct (String.prefix (String c0 old') (String c s)) eqn:Hm.
  - eapply contains_app_new; [done| |].
    + apply Hdisj. simpl. by rewrite bool_decide_eq_true_2.
    + eapply IH; [|done]. pose proof (drop_str_length (String.length old') s).
      simpl. lia.
  - change (String.prefix (String c0 old') (String c (replace_ne c0 old' new s))
            || contains (String c0 old') (replace_ne c0 old' new s) = false).
    rewrite (IH (String.length s) ltac:(simpl; lia) s eq_refl), orb_false_r.
    destruct (String.prefix (String c0 old') (String c (replace_ne c0 old' new s)))
      eqn:Hp; [|done].
    apply prefix_cons in Hp as [-> Hp].
    apply prefix_replace_ne in Hp; [|done|].
    + assert (String.prefix (String c old') (String c s) = true) as Hm'
        by by apply prefix_cons.
      congruence.
    + intros c' Hc'. apply Hdisj. simpl. rewrite Hc'. apply orb_true_r.
Qed.

Lemma universal_newlines_cons (c : ascii) (s : string) :
  universal_newlines (String c s)
  = if decide (c = CR) then
      match s with
      | String c' s'' =>
          if decide (c' = LF) then String LF (universal_newlines s'')
          else String LF (universal_newlines s)
      | "" => String LF ""
      end
    else String c (universal_newlines s).
Proof. reflexivity. Qed.

(** What a text-mode read returns has no carriage return left. *)
Lemma has_char_universal_newlines (s : string) :
  has_char CR (universal_newlines s) = false.
Proof.
  remember (String.length s) as n eqn:Hn. revert s Hn.
  induction (lt_wf n) as [n _ IH]. intros s ->.
  destruct s as [|c s]; [done|]. rewrite universal_newlines_cons.
  destruct (decide (c = CR)) as [->|Hc].
  - destruct s as [|c' s]; [done|].
    destruct (decide (c' = LF)) as [->|Hc']; cbn [has_char].
    + rewrite bool_decide_eq_false_2 by done.
      apply (IH (String.length s)); [simpl; lia|done].
    + rewrite bool_decide_eq_false_2 by done.
      apply (IH (String.length (String c' s))); [simpl; lia|done].
  - cbn [has_char]. rewrite bool_decide_eq_false_2 by congruence.
    apply (IH (String.length s)); [simpl; lia|done].
Qed.

Lemma has_char_drop_str (c : ascii) (n : nat) (s : string) :
  has_char c s = false → has_char c (drop_str n s) = false.
Proof.
  revert s. induction n as [|n IH]; intros [|a s]; simpl; try done.
  intros [_ H]%orb_false_iff. by apply IH.
Qed.

(** [replace] brings in no character that is neither in the input nor in
    [new]. *)
Lemma has_char_replace_ne (c c0 : ascii) (old' new s : string) :
  has_char c new = false → has_char c s = false →
  has_char c (replace_ne c0 old' new s) = false.
Proof.
  intros Hnew.
  remember (String.length s) as n eqn:Hn. revert s Hn.
  induction (lt_wf n) as [n _ IH]. intros s -> Hs.
  destruct s as [|a s]; [by simp replace_ne|].
  simp replace_ne. simpl in Hs. apply orb_false_iff in Hs as [Ha Hs].
  destruct (String.prefix (String c0 old') (String a s)).
  - rewrite has_char_app, Hnew. simpl.
    eapply IH; [|done|by apply has_char_drop_str].
    pose proof (drop_str_length (String.length old') s). simpl. lia.
  - simpl. rewrite Ha. simpl. eapply IH; [|done|done]. simpl. lia.
Qed.

Lemma loaded_vocab (self restored : LayerWithCustomAssets) (inner_path : string)
    (fs : filesystem) :
  load_assets self inner_path fs = Some restored →
  ∃ text, fs !! os_path_join inner_path "vocabulary.txt" = Some text
          ∧ restored
            = {| vocab := Some (replace (universal_newlines text) "<unk>" "little") |}.
Proof.
  unfold load_assets, FileIO.read_text.
  destruct (fs !! os_path_join inner_path "vocabulary.txt") as [text|]; [|done].
  simpl. intros [= <-]. by exists text.
Qed.

(** X1. Whatever the file holds, the vocab that [load_assets] sets has no
    occurrence of "<unk>" and no carriage return. *)
Theorem load_assets_leaves_no_unk (self restored : LayerWithCustomAssets)
    (inner_path : string) (fs : filesystem) :
  load_assets self inner_path fs = Some restored →
  ∃ v, vocab restored = Some v
       ∧ contains "<unk>" v = false
       ∧ has_char CR v = false.
Proof.
  intros (text & _ & ->)%loaded_vocab. eexists. split; [done|]. split.
  - apply replace_ne_removes; [done|].
    intros c Hc. simpl in Hc.
    repeat (apply orb_true_iff in Hc as [Hc|Hc];
            [apply bool_decide_eq_true in Hc as ->; reflexivity|]).
    done.
  - apply has_char_replace_ne; [done|apply has_char_universal_newlines].
Qed.

(** X2. A layer that came out of [load_assets] goes through the cycle
    unchanged: saving it to any directory and loading there gives the same
    layer again. *)
Theorem loaded_layer_round_trips (self restored other : LayerWithCustomAssets)
    (inner_path inner_path' : string) (fs fs' : filesystem) :
  load_assets self inner_path fs = Some restored →
  save_assets restored inner_path' fs' ≫= load_assets other inner_path'
  = Some restored.
Proof.
  intros Hload.
  destruct (load_assets_leaves_no_unk _ _ _ _ Hload) as (v & Hv & Hunk & Hcr).
  rewrite (save_assets_then_load_assets v) by done.
  rewrite universal_newlines_without_cr by (by rewrite contains_char).
  unfold replace. rewrite replace_ne_absent by done.
  destruct restored as [vr]. simpl in Hv. by rewrite Hv.
Qed.

End AssetCycleFacts.

Lemma load_assets_leaves_no_unk_witness :
  CustomAssets.load_assets (CustomAssets.init None) "assets"
    {[ "assets/vocabulary.txt" := "<unk> <<unk>unk>" ]}
  = Some (CustomAssets.init (Some "little <littleunk>"))
  ∧ PyStr.contains "<unk>" "little <littleunk>" = false.
Proof.
  assert (CustomAssets.load_assets (CustomAssets.init None) "assets"
            {[ "assets/vocabulary.txt" := "<unk> <<unk>unk>" ]}
          = Some (CustomAssets.init (Some "little <littleunk>"))) as Hload
    by reflexivity.
  split; [exact Hload|].
  destruct (load_assets_leaves_no_unk _ _ _ _ Hload) as (v & [= <-] & Hunk & _).
  exact Hunk.
Defined.

Lemma loaded_layer_round_trips_witness :
  CustomAssets.load_assets (CustomAssets.init None) "assets"
    {[ "assets/vocabulary.txt" := "Mary had a <unk> lamb." ]}
  = Some (CustomAssets.init (Some "Mary had a little lamb."))
  ∧ CustomAssets.save_assets (CustomAssets.init (Some "Mary had a little lamb."))
      "elsewhere/" ∅
    ≫= CustomAssets.load_assets (CustomAssets.init None) "elsewhere/"
    = Some (CustomAssets.init (Some "Mary had a little lamb.")).
Proof.
  assert (CustomAssets.load_assets (CustomAssets.init None) "assets"
            {[ "assets/vocabulary.txt" := "Mary had a <unk> lamb." ]}
          = Some (CustomAssets.init (Some "Mary had a little lamb."))) as Hload
    by reflexivity.
  split; [exact Hload|].
  exact (loaded_layer_round_trips _ _ (CustomAssets.init None) _ "elsewhere/" _ ∅
           Hload).
Defined.

Section VariableStoreFacts.
Import CustomVariables.
Context {ndarray : Type}.
Implicit Types (store : gmap string ndarray) (ws : list ndarray).
Implicit Types (self other : LayerWithCustomVariables ndarray).

Lemma Forall_enumerate_from {A : Type} (P : nat → Prop) (k : nat) (l : list A) :
  Forall (fun iv => P (fst iv)) (enumerate_from k l)
  ↔ ∀ j, j < length l → P (k + j).
Proof.
  revert k. induction l as [|x l IH]; intros k; simpl.
  - split; [intros _ j Hj; lia|constructor].
  - rewrite Forall_cons, IH. simpl. split.
    + intros [H0 H] [|j] Hj; [by rewrite Nat.add_0_r|].
      replace (k + S j) with (S k + j) by lia. apply H. lia.
    + intros H. split.
      * specialize (H 0). rewrite Nat.add_0_r in H. apply H. lia.
      * intros j Hj. specialize (H (S j)). rewrite Nat.add_succ_r in H.
        apply H. lia.
Qed.

(** Every key of the store after a save: "variables", the index of a
    weight, or a key the save did not touch. *)
Lemma save_own_variables_lookup self store (key : string) :
  (key = "variables"
   ∧ save_own_variables self store !! key = Some (stored_variables self))
  ∨ (∃ i w, key = pretty i ∧ weights self !! i = Some w
            ∧ save_own_variables self store !! key = Some w)
  ∨ (key ≠ "variables" ∧ (∀ i, i < length (weights self) → key ≠ pretty i)
     ∧ save_own_variables self store !! key = store !! key).
Proof.
  destruct (decide (key = "variables")) as [->|Hv].
  { left. split; [done|]. apply save_own_variables_variables. }
  right.
  destruct (decide (Exists (fun i : nat => key = pretty i)
                      (seq 0 (length (weights self))))) as [Hex|Hnex].
  - left. apply Exists_exists in Hex as (i & Hi & ->).
    apply elem_of_seq in Hi as [_ Hi]. simpl in Hi.
    destruct (lookup_lt_is_Some_2 (weights self) i Hi) as [w Hw].
    exists i, w. split; [done|]. split; [done|].
    by apply save_own_variables_index.
  - right. assert (∀ i, i < length (weights self) → key ≠ pretty i) as Hne.
    { intros i Hi ->. apply Hnex, Exists_exists. exists i. split; [|done].
      apply elem_of_seq. simpl. lia. }
    split; [done|]. split; [done|]. by apply save_own_variables_other.
Qed.

(** X6. [save_own_variables] adds to the keys of the store "variables"
    and the indices of the weights; from an empty store that is one entry
    per weight and one more, no two under one key. *)
Theorem save_own_variables_keys self store :
  dom (save_own_variables self store)
  = {[ "variables" ]}
    ∪ list_to_set (pretty <$> seq 0 (length (weights self)))
    ∪ dom store
  ∧ size (save_own_variables self ∅) = S (length (weights self)).
Proof.
  assert (∀ st, dom (save_own_variables self st)
                = {[ "variables" ]}
                  ∪ list_to_set (pretty <$> seq 0 (length (weights self)))
                  ∪ dom st) as Hdom.
  { intros st. apply set_eq. intros key.
    rewrite !elem_of_union, elem_of_singleton, elem_of_list_to_set,
      list_elem_of_fmap, !elem_of_dom.
    destruct (save_own_variables_lookup self st key)
      as [[-> ->]|[(i & w & -> & Hw & ->)|(Hv & Hi & ->)]].
    - split; [by left; left|by eauto].
    - split; [|by eauto]. intros _. left. right. exists i. split; [done|].
      apply elem_of_seq. apply lookup_lt_Some in Hw. simpl. lia.
    - split; [by right|]. intros [[?|(i & -> & Hin)]|?]; [done| |done].
      apply elem_of_seq in Hin. exfalso. apply (Hi i); [simpl in Hin; lia|done]. }
  split; [apply Hdom|].
  rewrite <- size_dom, Hdom, dom_empty_L, (right_id_L ∅ (∪)).
  rewrite size_union.
  - rewrite size_singleton, size_list_to_set.
    + by rewrite length_fmap, length_seq.
    + apply (NoDup_fmap_2 _), NoDup_seq.
  - apply disjoint_singleton_l. rewrite elem_of_list_to_set, list_elem_of_fmap.
    intros (i & E & _). by apply (pretty_nat_not_variables i).
Qed.

(** X7. A save by a layer with at least as many weights as the layer
    that saved before leaves the store as if the earlier save had not
    happened. A save never removes an entry: under the indices past its own
    weights the store keeps what it held. *)
Theorem save_own_variables_overwrites first second store :
  (length (weights first) ≤ length (weights second) →
   save_own_variables second (save_own_variables first store)
   = save_own_variables second store)
  ∧ (∀ i : nat, length (weights second) ≤ i →
       save_own_variables second (save_own_variables first store) !! pretty i
       = save_own_variables first store !! pretty i).
Proof.
  split.
  - intros Hlen. apply map_eq. intros key.
    destruct (save_own_variables_lookup second store key)
      as [[-> ->]|[(i & w & -> & Hw & ->)|(Hv & Hi & ->)]].
    + apply save_own_variables_variables.
    + by apply save_own_variables_index.
    + rewrite save_own_variables_other by done.
      apply save_own_variables_other; [done|].
      intros j Hj. apply Hi. lia.
  - intros i Hi. apply save_own_variables_other.
    + apply pretty_nat_not_variables.
    + intros j Hj E. apply (inj pretty) in E. lia.
Qed.

End VariableStoreFacts.

Lemma save_own_variables_overwrites_witness :
  CustomVariables.save_own_variables
    {| CustomVariables._trainable_weights := [11; 12];
       CustomVariables._non_trainable_weights := [13];
       CustomVariables.stored_variables := 7 |}
    (CustomVariables.save_own_variables
       {| CustomVariables._trainable_weights := [1];
          CustomVariables._non_trainable_weights := [2];
          CustomVariables.stored_variables := 3 |}
       {[ "other" := 5 ]})
  = CustomVariables.save_own_variables
      {| CustomVariables._trainable_weights := [11; 12];
         CustomVariables._non_trainable_weights := [13];
         CustomVariables.stored_variables := 7 |}
      {[ "other" := 5 ]}.
Proof.
  apply (save_own_variables_overwrites
           {| CustomVariables._trainable_weights := [1];
              CustomVariables._non_trainable_weights := [2];
              CustomVariables.stored_variables := 3 |}).
  simpl. lia.
Defined.

Section LossOrderFacts.
Import Losses.
Local Open Scope Qc_scope.

Lemma Qc_square_nonneg (x : Qc) : 0 <= x * x.
Proof.
  destruct (Qclt_le_dec x 0) as [Hlt|Hle].
  - apply Qclt_le_weak, Qcopp_le_compat in Hlt.
    replace (- 0) with 0 in Hlt by ring.
    replace (x * x) with ((- x) * (- x)) by ring.
    replace 0 with (0 * - x) by ring. by apply Qcmult_le_compat_r.
  - replace 0 with (0 * x) by ring. by apply Qcmult_le_compat_r.
Qed.

Lemma Qc_of_nat_S (n : nat) : Qc_of_nat (S n) = Qc_of_nat n + 1.
Proof.
  unfold Qc_of_nat. apply Qc_is_canon. simpl. rewrite !Qred_correct.
  rewrite Nat2Z.inj_succ. unfold Z.succ. by rewrite inject_Z_plus.
Qed.

Lemma Qc_of_nat_pos (n : nat) : 0 < Qc_of_nat (S n).
Proof.
  change (0 < Qred (inject_Z (Z.of_nat (S n))))%Q. rewrite Qred_correct.
  unfold Qlt. simpl. lia.
Qed.

Lemma Qc_inv_10_nonneg : 0 <= / Qc_of_nat 10.
Proof. by vm_compute. Qed.

(** One entry of the loss before the sum: a square over ten. *)
Lemma entry_nonneg (a b : Qc) : 0 <= (a - b) * (a - b) / Qc_of_nat 10.
Proof.
  unfold Qcdiv. replace 0 with (0 * / Qc_of_nat 10) by ring.
  apply Qcmult_le_compat_r; [apply Qc_square_nonneg|apply Qc_inv_10_nonneg].
Qed.

(** The loss of one row. *)
#[local] Abbreviation row_loss := (fun p t : list Qc =>
  foldr Qcplus 0
    (map (fun a => a / Qc_of_nat 10) (zip_with (fun a b => (a - b) * (a - b)) p t))).

Lemma row_loss_nonneg (p t : list Qc) : 0 <= row_loss p t.
Proof.
  revert t. induction p as [|a p IH]; intros [|b t]; simpl;
    try apply Qcle_refl.
  replace 0 with (0 + 0) by ring.
  apply Qcplus_le_compat; [apply entry_nonneg|apply IH].
Qed.

Lemma row_loss_same (p : list Qc) : row_loss p p = 0.
Proof.
  induction p as [|a p IH]; [done|]. simpl. rewrite IH.
  unfold Qcdiv. ring.
Qed.

Lemma small_square_sum_loss_rows (y_true y_pred : tensor) (loss : list Qc) :
  small_square_sum_loss y_true y_pred = Some loss →
  row_lengths y_pred = row_lengths y_true
  ∧ loss = zip_with row_loss y_pred y_true.
Proof.
  unfold small_square_sum_loss, squared_difference.
  destruct (decide (row_lengths y_pred = row_lengths y_true)) as [E|]; [|done].
  simpl. intros [= <-]. split; [done|].
  unfold reduce_sum_axis1, div_scalar. clear E. revert y_true.
  induction y_pred as [|p x IH]; intros [|t y]; simpl; try done.
  by rewrite IH.
Qed.

Lemma sum_bounds (lo hi : Qc) (entries : list Qc) :
  Forall (fun x => lo <= x <= hi) entries →
  lo * Qc_of_nat (length entries) <= foldr Qcplus 0 entries
  ∧ foldr Qcplus 0 entries <= hi * Qc_of_nat (length entries).
Proof.
  induction 1 as [|x entries [Hlo Hhi] _ [IHlo IHhi]]; simpl length.
  - simpl. replace (Qc_of_nat 0) with 0 by (by apply Qc_is_canon).
    rewrite !Qcmult_0_r. split; apply Qcle_refl.
  - rewrite Qc_of_nat_S. simpl. split.
    + replace (lo * (Qc_of_nat (length entries) + 1))
        with (lo + lo * Qc_of_nat (length entries)) by ring.
      by apply Qcplus_le_compat.
    + replace (hi * (Qc_of_nat (length entries) + 1))
        with (hi + hi * Qc_of_nat (length entries)) by ring.
      by apply Qcplus_le_compat.
Qed.

(** X10. Over exact rationals, [mean_pred] has no value exactly when
    [y_pred] has no entry, and when all entries of [y_pred] lie between [lo]
    and [hi], so does its value. *)
Theorem mean_pred_within_bounds {Y : Type} (y_true : Y) (y_pred : tensor)
    (lo hi : Qc) :
  Forall (Forall (fun x => lo <= x <= hi)) y_pred →
  (mean_pred y_true y_pred = None ↔ concat y_pred = [])
  ∧ (∀ m, mean_pred y_true y_pred = Some m → lo <= m <= hi).
Proof.
  intros Hb. unfold mean_pred, reduce_mean.
  assert (Forall (fun x => lo <= x <= hi) (concat y_pred)) as Hc
    by by apply Forall_concat.
  destruct (concat y_pred) as [|x entries] eqn:Hentries; [by split|].
  split; [by split|].
  destruct (sum_bounds lo hi (x :: entries) Hc) as [Hlo Hhi].
  pose proof (Qc_of_nat_pos (length entries)) as Hpos.
  change (S (length entries)) with (length (x :: entries)) in Hpos.
  revert Hlo Hhi Hpos.
  generalize (foldr Qcplus 0 (x :: entries)) as total.
  generalize (Qc_of_nat (length (x :: entries))) as n.
  intros n total Hlo Hhi Hpos m [= <-].
  assert (n ≠ 0) as Hnz.
  { intros E. rewrite E in Hpos. by apply Qclt_not_eq in Hpos. }
  assert (total / n * n = total) as Hmul by (by field).
  split.
  - apply (Qcmult_lt_0_le_reg_r _ _ n); [done|]. by rewrite Hmul.
  - apply (Qcmult_lt_0_le_reg_r _ _ n); [done|]. by rewrite Hmul.
Qed.

End LossOrderFacts.

Section BuildConfigFacts.
Import CustomBuild.

(** X11. The build configuration of a layer that [build] has just built
    is enough to build it again: on a layer with the same [units],
    [build_from_config] gives a layer with the same input shape, the same
    [layer_init] and weights made with the same arguments. *)
Theorem build_config_rebuilds_the_layer (self fresh built_layer : LayerWithCustomBuild)
    (input_shape init : pyval) :
  units fresh = units self →
  build self input_shape init = Some built_layer →
  ∃ cfg,
    get_build_config built_layer = Some cfg
    ∧ build_from_config fresh cfg = Some built_layer.
Proof.
  intros Hunits Hbuild. unfold build in Hbuild.
  destruct (py_last input_shape) as [last_dim|] eqn:Hlast; [|done].
  simpl in Hbuild. injection Hbuild as <-.
  eexists. split; [reflexivity|].
  erewrite build_from_config_calls_build;
    [|by rewrite lookup_insert_ne, lookup_singleton_eq|apply lookup_insert_eq].
  unfold build. rewrite Hlast. simpl. by rewrite Hunits.
Qed.

(** X12. A build configuration as the default [get_build_config] gives
    it has no "layer_init", and [build_from_config] of
    [LayerWithCustomBuild] raises on it. *)
Theorem default_build_config_is_not_enough (self : LayerWithCustomBuild)
    (layer : KerasLayer.Layer) (cfg : config) :
  KerasLayer.get_build_config layer = Some cfg →
  cfg !! "layer_init" = None ∧ build_from_config self cfg = None.
Proof.
  unfold KerasLayer.get_build_config.
  destruct (KerasLayer._build_input_shape layer) as [s|]; [|done].
  simpl. intros [= <-]. split; [done|]. unfold build_from_config.
  rewrite lookup_singleton_eq. simpl. by rewrite lookup_singleton_ne.
Qed.

(** X13. [get_config] raises exactly when the configuration of the base
    class already has a "units" entry; otherwise it returns that
    configuration with one entry more, "units" bound to the layer's
    [units], and every other entry as it was. *)
Theorem get_config_adds_units (self : LayerWithCustomBuild) (base_config : config) :
  (is_Some (get_config self base_config) ↔ base_config !! "units" = None)
  ∧ (∀ cfg, get_config self base_config = Some cfg →
       cfg !! "units" = Some (PyInt (units self))
       ∧ (∀ key, key ≠ "units" → cfg !! key = base_config !! key)
       ∧ dom cfg = {[ "units" ]} ∪ dom base_config
       ∧ size cfg = S (size base_config)).
Proof.
  unfold get_config. destruct (base_config !! "units") as [v|] eqn:Hu.
  - split; [|done]. split; [by intros [? ?]|done].
  - split; [split; eauto|]. intros cfg [= <-].
    split; [apply lookup_insert_eq|].
    split; [by intros key Hk; apply lookup_insert_ne|].
    split; [apply dom_insert_L|]. by apply map_size_insert_None.
Qed.

End BuildConfigFacts.

Section CompileConfigFacts.
Import CustomCompile.
Variable serialize_keras_object : pyval → pyval.
Variable deserialize_keras_object : pyval → option pyval.

(** X14. On every model obtained from the constructor by calls of
    [compile] and successful calls of [compile_from_config], the three
    attributes are what [super().compile] was last called with, and
    [get_compile_config] returns them; on a model never compiled the
    attributes are missing and [get_compile_config] raises. *)
Theorem compile_attributes_mirror_compile (self : ModelWithCustomCompile) :
  reachable deserialize_keras_object self →
  match compiled_with self with
  | Some (optimizer, loss, metrics) =>
      model_optimizer self = Some optimizer
      ∧ loss_fn self = Some loss
      ∧ loss_metrics self = Some metrics
      ∧ get_compile_config self
        = Some {[ "model_optimizer" := optimizer; "loss_fn" := loss;
                  "metric" := metrics ]}
  | None =>
      model_optimizer self = None
      ∧ loss_fn self = None
      ∧ loss_metrics self = None
      ∧ get_compile_config self = None
  end.
Proof.
  induction 1 as [|self o l m _ _|self restored cfg _ _ Hload]; [done|done|].
  unfold compile_from_config in Hload.
  destruct (cfg !! "model_optimizer" ≫= deserialize_keras_object); [|done].
  destruct (cfg !! "loss_fn" ≫= deserialize_keras_object); [|done].
  destruct (cfg !! "metric" ≫= deserialize_keras_object); [|done].
  simpl in Hload. by injection Hload as <-.
Qed.

(** X15. When deserializing undoes serializing, a compile configuration
    survives the restore: for a model that holds its three attributes,
    [compile_from_config] on its serialized configuration succeeds on any
    model, compiles that model with the three attributes, and the result
    gives the same configuration again. *)
Theorem compile_config_survives_restore (self other : ModelWithCustomCompile)
    (optimizer loss metrics : pyval) :
  (∀ v, deserialize_keras_object (serialize_keras_object v) = Some v) →
  model_optimizer self = Some optimizer →
  loss_fn self = Some loss →
  loss_metrics self = Some metrics →
  ∃ cfg restored,
    get_compile_config self = Some cfg
    ∧ compile_from_config deserialize_keras_object other
        (serialize_keras_object <$> cfg) = Some restored
    ∧ restored = compile other optimizer loss metrics
    ∧ get_compile_config restored = Some cfg.
Proof.
  intros Hds Ho Hl Hm. eexists _, _. split.
  { unfold get_compile_config. by rewrite Ho, Hl, Hm. }
  split; [|split; [reflexivity|reflexivity]].
  apply (compile_from_config_calls_compile _ _ _
           (serialize_keras_object optimizer) (serialize_keras_object loss)
           (serialize_keras_object metrics));
    try apply Hds; rewrite lookup_fmap; by simplify_map_eq.
Qed.

End CompileConfigFacts.

Lemma mean_pred_within_bounds_witness :
  Forall (Forall (fun x => Losses.Qc_of_nat 0 <= x <= Losses.Qc_of_nat 1)%Qc)
    [[Losses.Qc_of_nat 0; Losses.Qc_of_nat 1]; [Losses.Qc_of_nat 1; Losses.Qc_of_nat 1]]
  ∧ ∃ m,
      Losses.mean_pred tt
        [[Losses.Qc_of_nat 0; Losses.Qc_of_nat 1];
         [Losses.Qc_of_nat 1; Losses.Qc_of_nat 1]]
      = Some m
      ∧ (Losses.Qc_of_nat 0 <= m <= Losses.Qc_of_nat 1)%Qc.
Proof.
  assert (Forall (Forall (fun x => Losses.Qc_of_nat 0 <= x <= Losses.Qc_of_nat 1)%Qc)
            [[Losses.Qc_of_nat 0; Losses.Qc_of_nat 1];
             [Losses.Qc_of_nat 1; Losses.Qc_of_nat 1]]) as Hb.
  { repeat constructor; by vm_compute. }
  split; [exact Hb|].
  destruct (Losses.mean_pred tt
              [[Losses.Qc_of_nat 0; Losses.Qc_of_nat 1];
               [Losses.Qc_of_nat 1; Losses.Qc_of_nat 1]]) as [m|] eqn:Hm.
  - exists m. split; [reflexivity|].
    exact (proj2 (mean_pred_within_bounds tt _ _ _ Hb) _ Hm).
  - exfalso. vm_compute in Hm. discriminate.
Defined.

Lemma build_config_rebuilds_the_layer_witness :
  ∃ built_layer cfg,
    CustomBuild.build (CustomBuild.init 16) (PyTuple [PyInt 8]) (PyStr "random_normal")
    = Some built_layer
    ∧ CustomBuild.get_build_config built_layer = Some cfg
    ∧ CustomBuild.build_from_config (CustomBuild.init 16) cfg = Some built_layer.
Proof.
  destruct (CustomBuild.build (CustomBuild.init 16) (PyTuple [PyInt 8])
              (PyStr "random_normal")) as [built_layer|] eqn:Hbuild; [|discriminate].
  destruct (build_config_rebuilds_the_layer (CustomBuild.init 16)
              (CustomBuild.init 16) built_layer (PyTuple [PyInt 8])
              (PyStr "random_normal") eq_refl Hbuild) as (cfg & Hget & Hload).
  exists built_layer, cfg. split; [reflexivity|]. split; [exact Hget|exact Hload].
Defined.

Lemma compile_attributes_mirror_compile_witness :
  CustomCompile.reachable Some
    (CustomCompile.compile CustomCompile.init (PyStr "SGD")
       (PyFunction "small_square_sum_loss")
       (PyList [PyStr "accuracy"; PyFunction "mean_pred"]))
  ∧ CustomCompile.get_compile_config
      (CustomCompile.compile CustomCompile.init (PyStr "SGD")
         (PyFunction "small_square_sum_loss")
         (PyList [PyStr "accuracy"; PyFunction "mean_pred"]))
    = Some {[ "model_optimizer" := PyStr "SGD";
              "loss_fn" := PyFunction "small_square_sum_loss";
              "metric" := PyList [PyStr "accuracy"; PyFunction "mean_pred"] ]}.
Proof.
  assert (CustomCompile.reachable Some
            (CustomCompile.compile CustomCompile.init (PyStr "SGD")
               (PyFunction "small_square_sum_loss")
               (PyList [PyStr "accuracy"; PyFunction "mean_pred"]))) as Hreach
    by (apply CustomCompile.reachable_compile, CustomCompile.reachable_init).
  split; [exact Hreach|].
  exact (proj2 (proj2 (proj2 (compile_attributes_mirror_compile Some _ Hreach)))).
Defined.

Lemma compile_config_survives_restore_witness :
  ∃ cfg restored,
    CustomCompile.get_compile_config
      (CustomCompile.compile CustomCompile.init (PyStr "SGD")
         (PyFunction "small_square_sum_loss")
         (PyList [PyStr "accuracy"; PyFunction "mean_pred"]))
    = Some cfg
    ∧ CustomCompile.compile_from_config Some CustomCompile.init (id <$> cfg)
      = Some restored
    ∧ CustomCompile.get_compile_config restored = Some cfg.
Proof.
  destruct (compile_config_survives_restore id Some
              (CustomCompile.compile CustomCompile.init (PyStr "SGD")
                 (PyFunction "small_square_sum_loss")
                 (PyList [PyStr "accuracy"; PyFunction "mean_pred"]))
              CustomCompile.init (PyStr "SGD")
              (PyFunction "small_square_sum_loss")
              (PyList [PyStr "accuracy"; PyFunction "mean_pred"])
              (fun v => eq_refl) eq_refl eq_refl eq_refl)
    as (cfg & restored & Hget & Hload & _ & Hget').
  exists cfg, restored. split; [exact Hget|]. split; [exact Hload|exact Hget'].
Defined.

Lemma default_build_config_is_not_enough_witness :
  KerasLayer.get_build_config (KerasLayer.build KerasLayer.init (PyTuple [PyInt 8]))
  = Some {[ "input_shape" := PyTuple [PyInt 8] ]}
  ∧ CustomBuild.build_from_config (CustomBuild.init 16)
      {[ "input_shape" := PyTuple [PyInt 8] ]}
    = None.
Proof.
  split; [reflexivity|].
  exact (proj2 (default_build_config_is_not_enough (CustomBuild.init 16)
                  (KerasLayer.build KerasLayer.init (PyTuple [PyInt 8]))
                  {[ "input_shape" := PyTuple [PyInt 8] ]} eq_refl)).
Defined.

(** * The hooks with the checks of the framework *)

(** ** The variable hooks with the shape check *)

Section CheckedVariableFacts.
Import CheckedVariables.
Context {ndarray : Type}.
Variable shape : ndarray → list nat.
Implicit Types (store : gmap string ndarray) (ws : list ndarray).
Implicit Types (self other restored : LayerWithCustomVariables ndarray).

Lemma assign_Some (v value new : ndarray) :
  assign shape v value = Some new ↔ new = value ∧ shape value = shape v.
Proof.
  unfold assign. destruct (decide (shape value = shape v)); split.
  - by intros [= <-].
  - by intros [-> _].
  - done.
  - by intros [_ ?].
Qed.

Lemma assign_same_shape (v value : ndarray) :
  shape value = shape v → assign shape v value = Some value.
Proof. intros H. by apply assign_Some. Qed.

Lemma save_own_variables_values self store :
  save_own_variables self store
  = CustomVariables.save_own_variables (values self) store.
Proof. reflexivity. Qed.

(** The loop succeeds with [news] exactly when each new value is under its
    index in the store and has the shape of the variable it goes to. *)
Lemma assign_all_from_Some (k : nat) ws (news : list ndarray) store :
  assign_all_from shape k ws store = Some news
  ↔ Forall2 (fun v new => shape new = shape v) ws news
    ∧ ∀ j new, news !! j = Some new → store !! pretty (k + j) = Some new.
Proof.
  unfold assign_all_from. revert k news.
  induction ws as [|v ws IH]; intros k news; simpl.
  - split.
    + intros [= <-]. split; [constructor|done].
    + intros [H _]. by inversion H.
  - split.
    + destruct (store !! pretty k) as [value|] eqn:Hk; [|done]. simpl.
      destruct (assign shape v value) as [new|] eqn:Ha; [|done]. simpl.
      apply assign_Some in Ha as [-> Hs].
      destruct (mapM _ _) as [rest|] eqn:Hrest; [|done]. simpl.
      intros [= <-]. apply IH in Hrest as [HF Hl]. split; [by constructor|].
      intros [|j] new Hj; simpl in Hj.
      * injection Hj as <-. by rewrite Nat.add_0_r.
      * rewrite Nat.add_succ_r. by apply Hl.
    + intros [HF Hl]. destruct news as [|new rest]; [by inversion HF|].
      apply Forall2_cons in HF as [Hs HF].
      pose proof (Hl 0 new eq_refl) as H0. rewrite Nat.add_0_r in H0.
      rewrite H0. simpl. rewrite (assign_same_shape v new Hs). simpl.
      assert (∀ j x, rest !! j = Some x → store !! pretty (S k + j) = Some x)
        as Hrest.
      { intros j x Hj. specialize (Hl (S j) x Hj).
        by rewrite Nat.add_succ_r in Hl. }
      by rewrite (proj2 (IH (S k) rest) (conj HF Hrest)).
Qed.

(** When a load succeeds: the value under "variables" has the shape of
    [stored_variables], and every weight, [stored_variables] first, now
    holds the value under its index, which has the shape the weight had. *)
Lemma load_own_variables_Some self restored store :
  load_own_variables shape self store = Some restored
  ↔ (∃ value, store !! "variables" = Some value
              ∧ shape value = shape (stored_variables self))
    ∧ Forall2 (fun v new => shape new = shape v) (weights self) (weights restored)
    ∧ (∀ j new, weights restored !! j = Some new → store !! pretty j = Some new)
    ∧ length (dense_weights restored) = length (dense_weights self).
Proof.
  unfold load_own_variables. split.
  - destruct (store !! "variables") as [value|] eqn:Hv; [|done]. simpl.
    destruct (assign shape (stored_variables self) value) as [sv|] eqn:Ha; [|done].
    simpl. apply assign_Some in Ha as [-> Hs].
    destruct (assign_all_from _ _ _ _) as [news|] eqn:Hloop; [|done]. simpl.
    apply assign_all_from_Some in Hloop as [HF Hl].
    destruct news as [|sv' rest]; [done|]. intros [= <-].
    apply Forall2_cons in HF as [Hsv HF].
    pose proof (Forall2_length _ _ _ HF) as Hlen. rewrite List.length_app in Hlen.
    split; [by eauto|]. unfold weights, _trainable_weights. simpl.
    rewrite take_drop. split; [|split].
    + constructor; [congruence|done].
    + intros j new Hj. by apply (Hl j).
    + rewrite length_take. lia.
  - intros ((value & Hv & Hs) & HF & Hl & Hlen). rewrite Hv. simpl.
    rewrite (assign_same_shape _ value Hs). simpl.
    destruct restored as [sv' dense' non']. unfold weights, _trainable_weights in *.
    simpl in *. apply Forall2_cons in HF as [Hsv HF].
    assert (assign_all_from shape 0
              (value :: dense_weights self ++ _non_trainable_weights self) store
            = Some (sv' :: dense' ++ non')) as ->.
    { apply assign_all_from_Some. split; [|done].
      constructor; [congruence|done]. }
    simpl. rewrite <- Hlen. by rewrite take_app_length, drop_app_length.
Qed.

Lemma save_own_variables_weight self store (i : nat) (w : ndarray) :
  weights self !! i = Some w → save_own_variables self store !! pretty i = Some w.
Proof. apply (save_own_variables_index (values self)). Qed.


(** Loading what [self] saved into a layer whose weights have the shapes of
    the first weights of [self]. *)
Lemma load_after_save_prefix self other store :
  Forall2 (fun v new => shape new = shape v) (weights other)
    (take (length (weights other)) (weights self)) →
  ∃ restored,
    load_own_variables shape other (save_own_variables self store) = Some restored
    ∧ weights restored = take (length (weights other)) (weights self)
    ∧ stored_variables restored = stored_variables self
    ∧ length (dense_weights restored) = length (dense_weights other).
Proof.
  intros HF.
  remember (take (length (weights other)) (weights self)) as news eqn:Hnews.
  unfold weights, _trainable_weights in HF. simpl in HF.
  destruct news as [|sv' rest]; [by inversion HF|].
  assert (sv' = stored_variables self) as ->.
  { unfold weights, _trainable_weights in Hnews. simpl in Hnews.
    by injection Hnews as -> _. }
  pose proof HF as HF'. apply Forall2_cons in HF' as [Hsv HFrest].
  pose proof (Forall2_length _ _ _ HFrest) as Hlen. rewrite List.length_app in Hlen.
  exists {| stored_variables := stored_variables self;
            dense_weights := take (length (dense_weights other)) rest;
            _non_trainable_weights := drop (length (dense_weights other)) rest |}.
  assert (weights
            {| stored_variables := stored_variables self;
               dense_weights := take (length (dense_weights other)) rest;
               _non_trainable_weights := drop (length (dense_weights other)) rest |}
          = stored_variables self :: rest) as Hw.
  { unfold weights, _trainable_weights. simpl. by rewrite take_drop. }
  split; [|split; [done|split; [done|]]].
  - apply load_own_variables_Some. rewrite Hw. split; [|split; [|split]].
    + exists (stored_variables self). split; [|done].
      apply (save_own_variables_variables (values self)).
    + done.
    + intros j new Hj. apply save_own_variables_weight.
      rewrite Hnews in Hj. by apply lookup_take_Some in Hj as [Hj _].
    + simpl. rewrite length_take. lia.
  - simpl. rewrite length_take. lia.
Qed.

Lemma assign_all_from_is_Some (k : nat) ws store :
  is_Some (assign_all_from shape k ws store)
  ↔ ∀ j v, ws !! j = Some v →
      ∃ new, store !! pretty (k + j) = Some new ∧ shape new = shape v.
Proof.
  unfold assign_all_from. revert k.
  induction ws as [|v ws IH]; intros k; simpl.
  - split; [by intros _ j v|by eauto].
  - split.
    + destruct (store !! pretty k) as [value|] eqn:Hk; [|by intros [? ?]]. simpl.
      destruct (assign shape v value) as [new|] eqn:Ha; [|by intros [? ?]]. simpl.
      apply assign_Some in Ha as [-> Hs].
      destruct (mapM _ _) as [rest|] eqn:Hrest; [|by intros [? ?]].
      intros _ [|j] v' Hj; simpl in Hj.
      * injection Hj as <-. rewrite Nat.add_0_r. by exists value.
      * rewrite Nat.add_succ_r. apply (proj1 (IH (S k))); [by rewrite Hrest|done].
    + intros H. destruct (H 0 v eq_refl) as (new & Hk & Hs).
      rewrite Nat.add_0_r in Hk. rewrite Hk. simpl.
      rewrite (assign_same_shape v new Hs). simpl.
      destruct (proj2 (IH (S k))) as [rest Hrest].
      { intros j v' Hj. specialize (H (S j) v' Hj).
        by rewrite Nat.add_succ_r in H. }
      by rewrite Hrest.
Qed.

Lemma load_own_variables_is_Some_checked self store :
  is_Some (load_own_variables shape self store)
  ↔ (∃ value, store !! "variables" = Some value
              ∧ shape value = shape (stored_variables self))
    ∧ ∀ i v, weights self !! i = Some v →
        ∃ new, store !! pretty i = Some new ∧ shape new = shape v.
Proof.
  unfold load_own_variables.
  destruct (store !! "variables") as [value|] eqn:Hv; simpl;
    [|split; [by intros [? ?]|by intros [(? & ? & _) _]]].
  destruct (decide (shape value = shape (stored_variables self))) as [Hs|Hs].
  - rewrite (assign_same_shape _ value Hs). simpl.
    assert (is_Some (assign_all_from shape 0
                       (value :: dense_weights self ++ _non_trainable_weights self)
                       store)
            ↔ ∀ i v, weights self !! i = Some v →
                ∃ new, store !! pretty i = Some new ∧ shape new = shape v) as <-.
    { rewrite assign_all_from_is_Some. unfold weights, _trainable_weights.
      split; intros H [|i] v Hi; simpl in Hi.
      - injection Hi as <-. destruct (H 0 value eq_refl) as (new & ? & ?).
        exists new. split; [done|congruence].
      - by apply (H (S i)).
      - injection Hi as <-.
        destruct (H 0 (stored_variables self) eq_refl) as (new & ? & ?).
        exists new. split; [done|congruence].
      - by apply (H (S i)). }
    destruct (assign_all_from _ _ _ _) as [news|] eqn:Hloop; simpl.
    + apply assign_all_from_Some in Hloop as [HF _].
      destruct news as [|sv' rest]; [by inversion HF|]. split; eauto.
    + split; [by intros [? ?]|by intros [_ [? ?]]].
  - assert (assign shape (stored_variables self) value = None) as ->.
    { unfold assign. by rewrite decide_False. }
    simpl. split; [by intros [? ?]|]. intros [(value' & [= <-] & ?) _]. done.
Qed.



(** X4. [load_own_variables] reads the key "variables" and the keys
    [str(i)] for the indices [i] of the layer's weights, and no other. It
    succeeds exactly when the store holds, under "variables" and under each
    index, a value of the shape of the variable it goes to. Then every
    weight holds the value under its index; so does [stored_variables], the
    first weight: the value under "variables" does not stay. Two stores
    that agree on these keys give the same result. *)
Theorem load_own_variables_reads_its_keys self store :
  (is_Some (load_own_variables shape self store)
   ↔ (∃ value, store !! "variables" = Some value
               ∧ shape value = shape (stored_variables self))
     ∧ ∀ i v, weights self !! i = Some v →
         ∃ new, store !! pretty i = Some new ∧ shape new = shape v)
  ∧ (∀ restored,
       load_own_variables shape self store = Some restored →
       store !! pretty 0 = Some (stored_variables restored)
       ∧ ∀ i : nat, i < length (weights self) →
           weights restored !! i = store !! pretty i)
  ∧ (∀ store',
       store' !! "variables" = store !! "variables" →
       (∀ i : nat, i < length (weights self) →
          store' !! pretty i = store !! pretty i) →
       load_own_variables shape self store' = load_own_variables shape self store).
Proof.
  split; [apply load_own_variables_is_Some_checked|]. split.
  - intros restored (_ & HF & Hl & _)%load_own_variables_Some.
    split; [by apply (Hl 0)|]. intros i Hi.
    rewrite (Forall2_length _ _ _ HF) in Hi.
    destruct (lookup_lt_is_Some_2 _ _ Hi) as [new Hnew].
    rewrite Hnew. symmetry. by apply Hl.
  - intros store' Hv Hi. unfold load_own_variables. rewrite Hv.
    destruct (store !! "variables") as [value|]; [|done]. simpl.
    destruct (assign shape (stored_variables self) value) as [sv|] eqn:Ha; [|done].
    simpl. apply assign_Some in Ha as [-> _].
    assert (assign_all_from shape 0
              (value :: dense_weights self ++ _non_trainable_weights self) store'
            = assign_all_from shape 0
                (value :: dense_weights self ++ _non_trainable_weights self) store)
      as ->; [|done].
    unfold assign_all_from. apply Forall_mapM_ext.
    eapply Forall_impl.
    + apply (Forall_enumerate_from
               (fun i => store' !! pretty i = store !! pretty i) 0).
      intros j Hj. apply Hi. unfold weights, _trainable_weights. simpl in *. lia.
    + intros [i v] E. simpl in *. by rewrite E.
Qed.

(** X5. Loading what a layer saved into a layer with at most as many
    weights, each of the shape of the saved one at its index, succeeds: it
    takes the first of the saved weights, [stored_variables] among them,
    and leaves the number of trainable weights as it was. Loading what a
    layer saved to an empty store into a layer with more weights raises. *)
Theorem load_own_variables_other_size self other store :
  (Forall2 (fun v new => shape new = shape v) (weights other)
     (take (length (weights other)) (weights self)) →
   ∃ restored,
     load_own_variables shape other (save_own_variables self store) = Some restored
     ∧ stored_variables restored = stored_variables self
     ∧ weights restored = take (length (weights other)) (weights self)
     ∧ length (dense_weights restored) = length (dense_weights other))
  ∧ (length (weights self) < length (weights other) →
     load_own_variables shape other (save_own_variables self ∅) = None).
Proof.
  split.
  - intros HF. destruct (load_after_save_prefix self other store HF)
      as (r & Hr & Hw & Hsv & Hd).
    by exists r.
  - intros Hlen.
    destruct (load_own_variables shape other (save_own_variables self ∅))
      as [r|] eqn:Hl; [|done].
    exfalso. apply load_own_variables_Some in Hl as (_ & HF & Hl & _).
    rewrite (Forall2_length _ _ _ HF) in Hlen.
    destruct (lookup_lt_is_Some_2 _ _ Hlen) as [new Hnew].
    apply Hl in Hnew. rewrite save_own_variables_values in Hnew.
    rewrite save_own_variables_other in Hnew; [done|..].
    + apply pretty_nat_not_variables.
    + intros j Hj E. apply (inj pretty) in E. subst j.
      unfold weights in Hj. simpl in *. lia.
Qed.

End CheckedVariableFacts.


Lemma load_own_variables_other_size_witness :
  ∃ restored,
    CheckedVariables.load_own_variables (fun a : list nat => [length a])
      {| CheckedVariables.stored_variables := [0];
         CheckedVariables.dense_weights := [[0; 0]];
         CheckedVariables._non_trainable_weights := [] |}
      (CheckedVariables.save_own_variables
         {| CheckedVariables.stored_variables := [7];
            CheckedVariables.dense_weights := [[11; 12]];
            CheckedVariables._non_trainable_weights := [[13]] |} ∅)
    = Some restored
    ∧ CheckedVariables.weights restored = [[7]; [11; 12]].
Proof.
  destruct (load_own_variables_other_size (fun a : list nat => [length a])
              {| CheckedVariables.stored_variables := [7];
                 CheckedVariables.dense_weights := [[11; 12]];
                 CheckedVariables._non_trainable_weights := [[13]] |}
              {| CheckedVariables.stored_variables := [0];
                 CheckedVariables.dense_weights := [[0; 0]];
                 CheckedVariables._non_trainable_weights := [] |} ∅)
    as [Hfewer _].
  destruct Hfewer as (restored & Hload & _ & Hw & _); [repeat constructor|].
  exists restored. split; [exact Hload|exact Hw].
Defined.

Lemma load_own_variables_reads_its_keys_witness :
  ∃ restored,
    CheckedVariables.load_own_variables (fun a : list nat => [length a])
      {| CheckedVariables.stored_variables := [0];
         CheckedVariables.dense_weights := [];
         CheckedVariables._non_trainable_weights := [] |}
      {[ "variables" := [9]; "0" := [7] ]}
    = Some restored
    ∧ CheckedVariables.stored_variables restored = [7].
Proof.
  destruct (load_own_variables_reads_its_keys (fun a : list nat => [length a])
              {| CheckedVariables.stored_variables := [0];
                 CheckedVariables.dense_weights := [];
                 CheckedVariables._non_trainable_weights := [] |}
              {[ "variables" := [9]; "0" := [7] ]})
    as (Hsome & Hvalue & _).
  destruct (proj2 Hsome) as [restored Hload].
  { split.
    - exists [9]. split; reflexivity.
    - intros [|i] v Hi; [|discriminate]. injection Hi as <-.
      exists [7]. split; reflexivity. }
  exists restored. split; [exact Hload|].
  destruct (Hvalue restored Hload) as [H0 _].
  assert (({[ "variables" := [9]; "0" := [7] ]} : gmap string (list nat))
            !! pretty 0 = Some [7]) as Hkey by reflexivity.
  congruence.
Defined.

(** ** The build hooks with the calls of [add_weight] *)

Section CheckedBuildFacts.
Import CheckedBuild.
Context {variable backend : Type}.
Variable add_weight :
  pyval → pyval → bool → backend → option (variable * backend).
Implicit Types (self other restored : LayerWithCustomBuild variable).
Implicit Types (fw : backend) (cfg : config).

(** [build] returns exactly when the input shape has a last entry and the
    framework makes both weights, the second on what the first call left;
    the layer then holds the two weights in [w] and [b], the initializer in
    [layer_init], and is built for the input shape. *)
Lemma build_Some self (input_shape init : pyval) fw restored fw2 :
  build add_weight self input_shape init fw = Some (restored, fw2)
  ↔ ∃ last_dim w' fw1 b',
      py_last input_shape = Some last_dim
      ∧ add_weight (PyTuple [last_dim; PyInt (units self)]) init true fw
        = Some (w', fw1)
      ∧ add_weight (PyTuple [PyInt (units self)]) init true fw1 = Some (b', fw2)
      ∧ restored
        = {| base := {| KerasLayer.built := true;
                        KerasLayer._build_input_shape := Some input_shape |};
             units := units self;
             w := Some w'; b := Some b'; layer_init := Some init |}.
Proof.
  unfold build. split.
  - destruct (py_last input_shape) as [last_dim|]; [|done]. simpl.
    destruct (add_weight (PyTuple [last_dim; _]) _ _ _) as [[w' fw1]|] eqn:Hw;
      [|done]. simpl.
    destruct (add_weight (PyTuple [PyInt _]) _ _ _) as [[b' fw2']|] eqn:Hb;
      [|done]. simpl.
    intros [= <- <-]. by exists last_dim, w', fw1, b'.
  - intros (last_dim & w' & fw1 & b' & -> & Hw & Hb & ->). simpl.
    rewrite Hw. simpl. rewrite Hb. done.
Qed.

Lemma checked_build_from_config_calls_build self cfg (input_shape init : pyval) fw :
  cfg !! "input_shape" = Some input_shape →
  cfg !! "layer_init" = Some init →
  build_from_config add_weight self cfg fw = build add_weight self input_shape init fw.
Proof. intros H1 H2. unfold build_from_config. by rewrite H1, H2. Qed.

(** C6. Once [build] has returned, [get_build_config] is the dictionary of
    the input shape under "input_shape" and the initializer under
    "layer_init", and nothing else. On a configuration with these two
    entries [build_from_config] is [build] on them, with the same outcome,
    raised or returned. It returns exactly when the input shape has a last
    entry and [add_weight] makes both weights; the layer then holds them in
    [w] and [b], its [layer_init] is the entry of the configuration, and it
    is built for the input shape of the configuration. *)
Theorem build_config_captures_build_state self (input_shape init : pyval) fw
    (built_layer : LayerWithCustomBuild variable) (fw' : backend) :
  build add_weight self input_shape init fw = Some (built_layer, fw') →
  get_build_config built_layer
  = Some {[ "input_shape" := input_shape; "layer_init" := init ]}
  ∧ ∀ other cfg (input_shape' init' : pyval) (fw0 : backend),
      cfg !! "input_shape" = Some input_shape' →
      cfg !! "layer_init" = Some init' →
      build_from_config add_weight other cfg fw0
      = build add_weight other input_shape' init' fw0
      ∧ (∀ restored fw2,
           build_from_config add_weight other cfg fw0 = Some (restored, fw2)
           ↔ ∃ last_dim w' fw1 b',
               py_last input_shape' = Some last_dim
               ∧ add_weight (PyTuple [last_dim; PyInt (units other)]) init' true fw0
                 = Some (w', fw1)
               ∧ add_weight (PyTuple [PyInt (units other)]) init' true fw1
                 = Some (b', fw2)
               ∧ restored
                 = {| base := {| KerasLayer.built := true;
                                 KerasLayer._build_input_shape := Some input_shape' |};
                      units := units other;
                      w := Some w'; b := Some b'; layer_init := Some init' |})
      ∧ (∀ restored fw2,
           build_from_config add_weight other cfg fw0 = Some (restored, fw2) →
           layer_init restored = cfg !! "layer_init"
           ∧ KerasLayer.built (base restored) = true
           ∧ KerasLayer._build_input_shape (base restored) = cfg !! "input_shape").
Proof.
  intros Hbuild. split.
  - apply build_Some in Hbuild as (last_dim & w' & fw1 & b' & _ & _ & _ & ->).
    reflexivity.
  - intros other cfg input_shape' init' fw0 Hs Hi.
    rewrite (checked_build_from_config_calls_build other cfg input_shape' init' fw0 Hs Hi).
    split; [done|]. split.
    + intros restored fw2. apply build_Some.
    + intros restored fw2 (?&?&?&?&_&_&_&->)%build_Some. by rewrite Hs, Hi.
Qed.

End CheckedBuildFacts.

Lemma build_config_captures_build_state_witness :
  CheckedBuild.build
    (fun (shape initializer : pyval) (_ : bool) (made : nat) =>
       match initializer with
       | PyStr _ => Some ((shape, made), S made)
       | _ => None
       end)
    (CheckedBuild.init 16) (PyTuple [PyInt 8; PyInt 8]) (PyStr "random_normal") 0
  = Some ({| CheckedBuild.base :=
               {| KerasLayer.built := true;
                  KerasLayer._build_input_shape := Some (PyTuple [PyInt 8; PyInt 8]) |};
             CheckedBuild.units := 16;
             CheckedBuild.w := Some (PyTuple [PyInt 8; PyInt 16], 0);
             CheckedBuild.b := Some (PyTuple [PyInt 16], 1);
             CheckedBuild.layer_init := Some (PyStr "random_normal") |}, 2)
  ∧ CheckedBuild.get_build_config
      {| CheckedBuild.base :=
           {| KerasLayer.built := true;
              KerasLayer._build_input_shape := Some (PyTuple [PyInt 8; PyInt 8]) |};
         CheckedBuild.units := 16;
         CheckedBuild.w := Some (PyTuple [PyInt 8; PyInt 16], 0);
         CheckedBuild.b := Some (PyTuple [PyInt 16], 1);
         CheckedBuild.layer_init := Some (PyStr "random_normal") |}
    = Some {[ "input_shape" := PyTuple [PyInt 8; PyInt 8];
              "layer_init" := PyStr "random_normal" ]}.
Proof.
  assert (CheckedBuild.build
            (fun (shape initializer : pyval) (_ : bool) (made : nat) =>
               match initializer with
               | PyStr _ => Some ((shape, made), S made)
               | _ => None
               end)
            (CheckedBuild.init 16) (PyTuple [PyInt 8; PyInt 8])
            (PyStr "random_normal") 0
          = Some ({| CheckedBuild.base :=
                       {| KerasLayer.built := true;
                          KerasLayer._build_input_shape :=
                            Some (PyTuple [PyInt 8; PyInt 8]) |};
                     CheckedBuild.units := 16;
                     CheckedBuild.w := Some (PyTuple [PyInt 8; PyInt 16], 0);
                     CheckedBuild.b := Some (PyTuple [PyInt 16], 1);
                     CheckedBuild.layer_init := Some (PyStr "random_normal") |}, 2))
    as Hbuild by reflexivity.
  split; [exact Hbuild|].
  exact (proj1 (build_config_captures_build_state _ _ _ _ _ _ _ Hbuild)).
Defined.

(** ** The compile hooks with the call of [Model.compile] *)

Section CheckedCompileFacts.
Import CheckedCompile.
Context {backend : Type}.
Variable Model_compile : pyval → pyval → pyval → backend → option backend.
Variable deserialize_keras_object : pyval → option pyval.
Implicit Types (self other restored : ModelWithCustomCompile).
Implicit Types (fw : backend) (cfg : config).

(** [compile] returns exactly when [super().compile] does, on the same
    three arguments; the model then holds the three arguments, and the
    framework what [super().compile] left. *)
Lemma compile_Some self (optimizer loss metrics : pyval) fw restored fw' :
  compile Model_compile self optimizer loss metrics fw = Some (restored, fw')
  ↔ Model_compile optimizer loss metrics fw = Some fw'
    ∧ restored = {| model_optimizer := Some optimizer;
                    loss_fn := Some loss;
                    loss_metrics := Some metrics |}.
Proof.
  unfold compile. destruct (Model_compile optimizer loss metrics fw) as [fw1|];
    simpl; split.
  - by intros [= <- <-].
  - by intros [[= ->] ->].
  - done.
  - by intros [? _].
Qed.

Lemma compile_from_config_Some self cfg fw restored fw' :
  compile_from_config Model_compile deserialize_keras_object self cfg fw
  = Some (restored, fw')
  ↔ ∃ o l m o' l' m',
      cfg !! "model_optimizer" = Some o ∧ deserialize_keras_object o = Some o'
      ∧ cfg !! "loss_fn" = Some l ∧ deserialize_keras_object l = Some l'
      ∧ cfg !! "metric" = Some m ∧ deserialize_keras_object m = Some m'
      ∧ Model_compile o' l' m' fw = Some fw'
      ∧ restored = {| model_optimizer := Some o';
                      loss_fn := Some l';
                      loss_metrics := Some m' |}.
Proof.
  unfold compile_from_config. split.
  - destruct (cfg !! "model_optimizer") as [o|]; [|done]. simpl.
    destruct (deserialize_keras_object o) as [o'|] eqn:Ho; [|done]. simpl.
    destruct (cfg !! "loss_fn") as [l|]; [|done]. simpl.
    destruct (deserialize_keras_object l) as [l'|] eqn:Hl; [|done]. simpl.
    destruct (cfg !! "metric") as [m|]; [|done]. simpl.
    destruct (deserialize_keras_object m) as [m'|] eqn:Hm; [|done]. simpl.
    intros [Hc ->]%compile_Some. by exists o, l, m, o', l', m'.
  - intros (o & l & m & o' & l' & m' & -> & Ho & -> & Hl & -> & Hm & Hc & ->).
    simpl. rewrite Ho. simpl. rewrite Hl. simpl. rewrite Hm. simpl.
    by apply compile_Some.
Qed.

(** C7. Once [compile] has returned, [super().compile] has run on the three
    arguments of the call, and [get_compile_config] is the dictionary of
    these arguments under "model_optimizer", "loss_fn" and "metric", and
    nothing else: the arguments of the most recent call, since each call
    overwrites all three. [compile_from_config] reads these three entries
    of its configuration and no other; when they are there and
    deserialize, it is [compile] on the deserialized values, with the same
    outcome, raised or returned; and it returns exactly then and when
    [super().compile] accepts them. *)
Theorem compile_config_captures_compile_arguments self
    (optimizer loss metrics : pyval) fw
    (compiled_model : ModelWithCustomCompile) (fw' : backend) :
  compile Model_compile self optimizer loss metrics fw = Some (compiled_model, fw') →
  Model_compile optimizer loss metrics fw = Some fw'
  ∧ get_compile_config compiled_model
    = Some {[ "model_optimizer" := optimizer; "loss_fn" := loss;
              "metric" := metrics ]}
  ∧ ∀ other cfg (fw0 : backend),
      (∀ o l m o' l' m',
         cfg !! "model_optimizer" = Some o → deserialize_keras_object o = Some o' →
         cfg !! "loss_fn" = Some l → deserialize_keras_object l = Some l' →
         cfg !! "metric" = Some m → deserialize_keras_object m = Some m' →
         compile_from_config Model_compile deserialize_keras_object other cfg fw0
         = compile Model_compile other o' l' m' fw0)
      ∧ (∀ restored fw1,
           compile_from_config Model_compile deserialize_keras_object other cfg fw0
           = Some (restored, fw1)
           ↔ ∃ o l m o' l' m',
               cfg !! "model_optimizer" = Some o
               ∧ deserialize_keras_object o = Some o'
               ∧ cfg !! "loss_fn" = Some l ∧ deserialize_keras_object l = Some l'
               ∧ cfg !! "metric" = Some m ∧ deserialize_keras_object m = Some m'
               ∧ Model_compile o' l' m' fw0 = Some fw1
               ∧ restored = {| model_optimizer := Some o';
                               loss_fn := Some l';
                               loss_metrics := Some m' |})
      ∧ (∀ cfg',
           cfg' !! "model_optimizer" = cfg !! "model_optimizer" →
           cfg' !! "loss_fn" = cfg !! "loss_fn" →
           cfg' !! "metric" = cfg !! "metric" →
           compile_from_config Model_compile deserialize_keras_object other cfg' fw0
           = compile_from_config Model_compile deserialize_keras_object other cfg fw0).
Proof.
  intros [Hc ->]%compile_Some. split; [done|]. split; [reflexivity|].
  intros other cfg fw0. split; [|split].
  - intros o l m o' l' m' Ho Ho' Hl Hl' Hm Hm'. unfold compile_from_config.
    rewrite Ho, Hl, Hm. simpl. by rewrite Ho', Hl', Hm'.
  - intros restored fw1. apply compile_from_config_Some.
  - intros cfg' Ho Hl Hm. unfold compile_from_config. by rewrite Ho, Hl, Hm.
Qed.

End CheckedCompileFacts.

Lemma compile_config_captures_compile_arguments_witness :
  CheckedCompile.compile
    (fun (optimizer loss metrics : pyval) (calls : list (pyval * pyval * pyval)) =>
       match optimizer with
       | PyStr _ => Some ((optimizer, loss, metrics) :: calls)
       | _ => None
       end)
    CheckedCompile.init (PyStr "SGD") (PyFunction "small_square_sum_loss")
    (PyList [PyStr "accuracy"; PyFunction "mean_pred"]) []
  = Some ({| CheckedCompile.model_optimizer := Some (PyStr "SGD");
             CheckedCompile.loss_fn := Some (PyFunction "small_square_sum_loss");
             CheckedCompile.loss_metrics :=
               Some (PyList [PyStr "accuracy"; PyFunction "mean_pred"]) |},
          [(PyStr "SGD", PyFunction "small_square_sum_loss",
            PyList [PyStr "accuracy"; PyFunction "mean_pred"])])
  ∧ CheckedCompile.get_compile_config
      {| CheckedCompile.model_optimizer := Some (PyStr "SGD");
         CheckedCompile.loss_fn := Some (PyFunction "small_square_sum_loss");
         CheckedCompile.loss_metrics :=
           Some (PyList [PyStr "accuracy"; PyFunction "mean_pred"]) |}
    = Some {[ "model_optimizer" := PyStr "SGD";
              "loss_fn" := PyFunction "small_square_sum_loss";
              "metric" := PyList [PyStr "accuracy"; PyFunction "mean_pred"] ]}.
Proof.
  assert (CheckedCompile.compile
            (fun (optimizer loss metrics : pyval)
                 (calls : list (pyval * pyval * pyval)) =>
               match optimizer with
               | PyStr _ => Some ((optimizer, loss, metrics) :: calls)
               | _ => None
               end)
            CheckedCompile.init (PyStr "SGD") (PyFunction "small_square_sum_loss")
            (PyList [PyStr "accuracy"; PyFunction "mean_pred"]) []
          = Some ({| CheckedCompile.model_optimizer := Some (PyStr "SGD");
                     CheckedCompile.loss_fn := Some (PyFunction "small_square_sum_loss");
                     CheckedCompile.loss_metrics :=
                       Some (PyList [PyStr "accuracy"; PyFunction "mean_pred"]) |},
                  [(PyStr "SGD", PyFunction "small_square_sum_loss",
                    PyList [PyStr "accuracy"; PyFunction "mean_pred"])]))
    as Hcompile by reflexivity.
  split; [exact Hcompile|].
  exact (proj1 (proj2 (compile_config_captures_compile_arguments _ Some _ _ _ _ _ _ _
                         Hcompile))).
Defined.

(** * The loss, the metric and the asset file *)

(** ** The loss and the metric, entry by entry *)

Section LossValueFacts.
Import Losses.
Local Open Scope Qc_scope.

Lemma sum_concat (t : tensor) :
  foldr Qcplus 0 (concat t) = foldr Qcplus 0 (reduce_sum_axis1 t).
Proof.
  unfold reduce_sum_axis1. induction t as [|row t IH]; [done|]. simpl.
  rewrite foldr_app, <- IH. generalize (foldr Qcplus 0 (concat t)) as rest.
  intros rest. induction row as [|a row IHrow]; simpl.
  - ring.
  - rewrite IHrow. ring.
Qed.

Lemma length_concat_rows (t : tensor) : length (concat t) = entry_count t.
Proof. unfold entry_count, row_lengths. apply length_concat. Qed.

Lemma Qc_of_nat_nonzero (n : nat) : n ≠ 0%nat → Qc_of_nat n ≠ 0.
Proof.
  destruct n as [|n]; [done|]. intros _ E.
  pose proof (Qc_of_nat_pos n) as Hpos. rewrite E in Hpos.
  by apply Qclt_not_eq in Hpos.
Qed.

Lemma reduce_mean_Some (t : tensor) (m : Qc) :
  reduce_mean t = Some m ↔ is_mean_of m t.
Proof.
  unfold reduce_mean, is_mean_of. rewrite <- sum_concat, <- length_concat_rows.
  destruct (concat t) as [|x entries]; simpl length.
  - split; [done|]. by intros [? _].
  - pose proof (Qc_of_nat_nonzero (S (length entries)) ltac:(done)) as Hnz.
    revert Hnz. generalize (Qc_of_nat (S (length entries))) as n.
    generalize (foldr Qcplus 0 (x :: entries)) as total.
    intros total n Hnz. split.
    + intros [= <-]. split; [done|]. by field.
    + intros [_ <-]. f_equal. by field.
Qed.

Lemma reduce_mean_None (t : tensor) :
  reduce_mean t = None ↔ entry_count t = 0%nat.
Proof.
  unfold reduce_mean. rewrite <- length_concat_rows.
  destruct (concat t) as [|x entries]; simpl; by split.
Qed.

(** C8. [mean_pred] gives the same result whatever is passed for [y_true],
    and that result is the mean of [y_pred]: when [y_pred] has entries,
    the one value whose product with the number of entries is the sum of
    the entries; when it has none, no value. *)
Theorem mean_pred_ignores_y_true {Y Y' : Type} (y_true : Y) (y_true' : Y')
    (y_pred : tensor) :
  mean_pred y_true y_pred = mean_pred y_true' y_pred
  ∧ (∀ m, mean_pred y_true y_pred = Some m ↔ is_mean_of m y_pred)
  ∧ (mean_pred y_true y_pred = None ↔ entry_count y_pred = 0%nat)
  ∧ (entry_count y_pred ≠ 0%nat → ∃ m, mean_pred y_true y_pred = Some m).
Proof.
  split; [reflexivity|]. split; [apply reduce_mean_Some|].
  split; [apply reduce_mean_None|]. intros Hn. unfold mean_pred.
  destruct (reduce_mean y_pred) as [m|] eqn:Hm; [by exists m|].
  by apply reduce_mean_None in Hm.
Qed.

(** X8. On tensors of one shape [small_square_sum_loss] returns one value
    for each row, and none of them is negative. *)
Theorem small_square_sum_loss_nonneg (y_true y_pred : tensor) :
  row_lengths y_true = row_lengths y_pred →
  ∃ loss,
    small_square_sum_loss y_true y_pred = Some loss
    ∧ length loss = length y_true
    ∧ length loss = length y_pred
    ∧ Forall (fun v => 0 <= v) loss.
Proof.
  intros Hshape.
  assert (length y_true = length y_pred) as Hlen.
  { unfold row_lengths in Hshape.
    by rewrite <- (length_map length y_true), Hshape, length_map. }
  destruct (small_square_sum_loss y_true y_pred) as [loss|] eqn:Hloss.
  - exists loss. split; [done|].
    apply small_square_sum_loss_rows in Hloss as [_ ->].
    rewrite length_zip_with. split; [lia|]. split; [lia|].
    clear Hshape Hlen. revert y_true.
    induction y_pred as [|p x IH]; intros [|t y]; simpl; try constructor.
    + apply row_loss_nonneg.
    + apply IH.
  - unfold small_square_sum_loss, squared_difference in Hloss.
    by rewrite decide_True in Hloss.
Qed.

(** X9. The loss of a tensor against itself is zero in every row. *)
Theorem small_square_sum_loss_zero (y : tensor) :
  small_square_sum_loss y y = Some (replicate (length y) 0).
Proof.
  destruct (small_square_sum_loss y y) as [loss|] eqn:Hloss.
  - apply small_square_sum_loss_rows in Hloss as [_ ->]. f_equal.
    induction y as [|p y IH]; [done|]. simpl. by rewrite row_loss_same, IH.
  - unfold small_square_sum_loss, squared_difference in Hloss.
    by rewrite decide_True in Hloss.
Qed.

End LossValueFacts.

Lemma mean_pred_ignores_y_true_witness :
  Losses.entry_count [[Losses.Qc_of_nat 1; Losses.Qc_of_nat 2]; [Losses.Qc_of_nat 6]]
  ≠ 0
  ∧ ∃ m,
      Losses.mean_pred (PyStr "labels")
        [[Losses.Qc_of_nat 1; Losses.Qc_of_nat 2]; [Losses.Qc_of_nat 6]]
      = Some m
      ∧ Losses.mean_pred PyNone
          [[Losses.Qc_of_nat 1; Losses.Qc_of_nat 2]; [Losses.Qc_of_nat 6]]
        = Some m
      ∧ (m * Losses.Qc_of_nat 3 = Losses.Qc_of_nat 9)%Qc.
Proof.
  assert (Losses.entry_count
            [[Losses.Qc_of_nat 1; Losses.Qc_of_nat 2]; [Losses.Qc_of_nat 6]] ≠ 0)
    as Hn by (vm_compute; discriminate).
  split; [exact Hn|].
  destruct (mean_pred_ignores_y_true (PyStr "labels") PyNone
              [[Losses.Qc_of_nat 1; Losses.Qc_of_nat 2]; [Losses.Qc_of_nat 6]])
    as (Hsame & Hmean & _ & Hsome).
  destruct (Hsome Hn) as [m Hm]. exists m.
  split; [exact Hm|]. split; [by rewrite <- Hsame|].
  destruct (proj1 (Hmean m) Hm) as [_ Hprod].
  change (Losses.entry_count _) with 3%nat in Hprod.
  rewrite Hprod. by apply Qc_is_canon.
Defined.

Lemma small_square_sum_loss_nonneg_witness :
  Losses.row_lengths [[Losses.Qc_of_nat 1; Losses.Qc_of_nat 2]]
  = Losses.row_lengths [[Losses.Qc_of_nat 3; Losses.Qc_of_nat 5]]
  ∧ ∃ loss,
      Losses.small_square_sum_loss [[Losses.Qc_of_nat 1; Losses.Qc_of_nat 2]]
        [[Losses.Qc_of_nat 3; Losses.Qc_of_nat 5]]
      = Some loss
      ∧ length loss = 1
      ∧ Forall (fun v => (0 <= v)%Qc) loss.
Proof.
  split; [reflexivity|].
  destruct (small_square_sum_loss_nonneg [[Losses.Qc_of_nat 1; Losses.Qc_of_nat 2]]
              [[Losses.Qc_of_nat 3; Losses.Qc_of_nat 5]] eq_refl)
    as (loss & Hloss & Hlen & _ & Hpos).
  exists loss. split; [exact Hloss|]. split; [exact Hlen|exact Hpos].
Defined.

Lemma small_square_sum_loss_zero_witness :
  Losses.small_square_sum_loss [[Losses.Qc_of_nat 3; Losses.Qc_of_nat 5]; []]
    [[Losses.Qc_of_nat 3; Losses.Qc_of_nat 5]; []]
  = Some [0%Qc; 0%Qc].
Proof.
  exact (small_square_sum_loss_zero [[Losses.Qc_of_nat 3; Losses.Qc_of_nat 5]; []]).
Defined.

(** ** Two saves to one directory *)

Section AssetOverwriteFacts.
Import PyStr CustomAssets.

(** X3. When two layers save their assets to one directory, one after the
    other, the second save replaces the file of the first: the file system
    is as if only the second layer had saved, and a load from that
    directory finds the vocab of the second layer, as a text-mode read
    returns it and with every "<unk>" replaced by "little". *)
Theorem assets_of_two_layers (first second other : LayerWithCustomAssets)
    (v1 v2 d : string) (fs : filesystem) :
  vocab first = Some v1 → vocab second = Some v2 →
  ∃ fs1 fs2,
    save_assets first d fs = Some fs1
    ∧ save_assets second d fs1 = Some fs2
    ∧ save_assets second d fs = Some fs2
    ∧ load_assets other d fs2
      = Some {| vocab := Some (replace (universal_newlines v2) "<unk>" "little") |}.
Proof.
  intros H1 H2.
  exists (FileIO.write_text (os_path_join d "vocabulary.txt") v1 fs),
         (FileIO.write_text (os_path_join d "vocabulary.txt") v2 fs).
  unfold save_assets, load_assets. rewrite H1, H2. simpl.
  split; [done|]. split.
  - unfold FileIO.write_text. by rewrite insert_insert_eq.
  - split; [done|]. by rewrite read_after_write.
Qed.

End AssetOverwriteFacts.

Lemma assets_of_two_layers_witness :
  ∃ fs1 fs2,
    CustomAssets.save_assets (CustomAssets.init (Some "one <unk>")) "assets" ∅
    = Some fs1
    ∧ CustomAssets.save_assets (CustomAssets.init (Some "two <unk>")) "assets" fs1
      = Some fs2
    ∧ CustomAssets.load_assets (CustomAssets.init None) "assets" fs2
      = Some (CustomAssets.init (Some "two little")).
Proof.
  destruct (assets_of_two_layers (CustomAssets.init (Some "one <unk>"))
              (CustomAssets.init (Some "two <unk>")) (CustomAssets.init None)
              "one <unk>" "two <unk>" "assets" ∅ eq_refl eq_refl)
    as (fs1 & fs2 & Hs1 & Hs2 & _ & Hl).
  exists fs1, fs2. split; [exact Hs1|]. split; [exact Hs2|exact Hl].
Defined.
